(** * AlphaInspect report sheets: a Rocq model of [alphainspect/reports.py]

    The module under study composes multi-panel factor report sheets with
    matplotlib and exports notebooks and figures to HTML.  The Python code
    is embedded shallowly: every function of [reports.py] becomes a
    computation in a state-and-exception monad over an explicit [World]
    that holds the objects the interpreter would hold (tables, figures,
    in-memory buffers) and the operating-system resources the code can
    touch (environment, spawned processes, files, standard output). *)

From Stdlib Require Import ZArith QArith Qround String Ascii List Lia Permutation DecimalString.
From stdpp Require Import base list strings gmap.

(** ** Data model *)

(** A polars column: integer cells, [None] for a null. *)
Definition Series := list (option Z).

(** A polars table: named columns, in column order. *)
Definition DataFrame := list (string * Series).

(** The statistics mapping returned by some renderers. *)
Definition PanelSummary := list (string * Q).

(** What a renderer leaves on a drawing surface.  The drawing primitives
    of matplotlib are opaque to [reports.py]; a panel records which
    renderer drew it and from which inputs. *)
Inductive Artist :=
| IcTs (df_ic : DataFrame) (col : string) (axvlines : list string)
| IcHeatmapMonthly (df_ic : DataFrame) (col : string)
| Hist (df : DataFrame) (col : string)
| QuantilePortfolio (df_cum_ret : DataFrame) (fwd_ret_1 : string)
                    (period : Z) (axvlines : list string)
| FactorAutoCorrelation (df_auto_corr : DataFrame) (axvlines : list string)
| TurnoverQuantile (df_turnover : DataFrame) (quantile : option Z)
                   (factor_quantile : string) (periods : list Z)
                   (axvlines : list string).

(** One slot of a figure's grid; a blank slot holds no artist. *)
Abbreviation Axes := (list Artist).

Record Figure := mkFigure {
  fig_nrows : nat;
  fig_ncols : nat;
  fig_size : Z * Z;
  fig_axes : list Axes;        (* row-major *)
  fig_tight : bool }.

Definition set_axes (F : Figure) (axs : list Axes) : Figure :=
  mkFigure (fig_nrows F) (fig_ncols F) (fig_size F) axs (fig_tight F).

Definition set_tight (F : Figure) : Figure :=
  mkFigure (fig_nrows F) (fig_ncols F) (fig_size F) (fig_axes F) true.

(** Object handles: Python variables hold references. *)
Definition df_ref := nat.
Definition fig_ref := nat.
Definition buf_ref := nat.
Definition ax_ref := (fig_ref * nat)%type.

Record World := mkWorld {
  tables : list DataFrame;            (* live polars tables *)
  figures : list Figure;              (* pyplot's figure registry *)
  buffers : list (list Byte.byte);    (* io.BytesIO objects *)
  files : gmap string (list Byte.byte);   (* the file system *)
  environ : gmap string string;       (* os.environ of this process *)
  spawned : list string;              (* commands given to os.system *)
  stdout : list string }.             (* what print wrote *)

Definition set_tables (w : World) (ts : list DataFrame) : World :=
  mkWorld ts (figures w) (buffers w) (files w) (environ w) (spawned w) (stdout w).
Definition set_figures (w : World) (fs : list Figure) : World :=
  mkWorld (tables w) fs (buffers w) (files w) (environ w) (spawned w) (stdout w).
Definition set_buffers (w : World) (bs : list (list Byte.byte)) : World :=
  mkWorld (tables w) (figures w) bs (files w) (environ w) (spawned w) (stdout w).
Definition set_files (w : World) (fs : gmap string (list Byte.byte)) : World :=
  mkWorld (tables w) (figures w) (buffers w) fs (environ w) (spawned w) (stdout w).
Definition set_spawned (w : World) (cs : list string) : World :=
  mkWorld (tables w) (figures w) (buffers w) (files w) (environ w) cs (stdout w).
Definition set_stdout (w : World) (ls : list string) : World :=
  mkWorld (tables w) (figures w) (buffers w) (files w) (environ w) (spawned w) ls.

(** ** Exceptions and the interpreter monad *)

Inductive exn :=
| IndexError
| ColumnNotFoundError (name : string)
| ValueError (msg : string)
| AnalyticsError (msg : string)
| ReferenceError.   (* a handle that names no live object; the handles
                       issued by this runtime never raise it *)

(** The value a Python call evaluates to, for the calls of this module. *)
Inductive pyobj :=
| PyNone
| PyFigure (fig : fig_ref)
| PyTuple4 (fig : fig_ref) (ic_dict hist_dict : PanelSummary) (df_cum_ret : df_ref).

(** A computation keeps the world it reached when it raises. *)
Definition M (A : Type) : Type := World -> (exn + A) * World.

Definition ret {A} (a : A) : M A := fun w => (inr a, w).
Definition raise {A} (e : exn) : M A := fun w => (inl e, w).
Definition bind {A B} (m : M A) (k : A -> M B) : M B :=
  fun w => match m w with
           | (inl e, w') => (inl e, w')
           | (inr a, w') => k a w'
           end.
Definition lift {A} (r : exn + A) : M A := fun w => (r, w).

Notation "x <- c ;; k" := (bind c (fun x => k))
  (at level 100, c at next level, right associativity).
Notation "c ;; k" := (bind c (fun _ => k))
  (at level 100, right associativity).

Fixpoint for_each {A} (l : list A) (body : A -> M unit) : M unit :=
  match l with
  | [] => ret tt
  | x :: l' => body x ;; for_each l' body
  end.

Fixpoint enumerate_from {A} (i : nat) (l : list A) : list (nat * A) :=
  match l with
  | [] => []
  | x :: l' => (i, x) :: enumerate_from (S i) l'
  end.

(** Python's [enumerate]. *)
Definition enumerate {A} (l : list A) : list (nat * A) := enumerate_from 0 l.

(** [l[i]] for a non-negative index. *)
Definition getitem {A} (l : list A) (i : nat) : M A :=
  match l !! i with
  | Some x => ret x
  | None => raise IndexError
  end.

(** [a[r, c]] on a two-dimensional array. *)
Definition getitem2 {A} (a : list (list A)) (r c : nat) : M A :=
  row <- getitem a r ;; getitem row c.

(** [math.ceil] of a true division [a / b]. *)
Definition true_div (a b : Z) : Q := (inject_Z a / inject_Z b)%Q.
Definition ceil (q : Q) : Z := Qceiling q.

(** ** polars *)

Definition load (df : df_ref) : M DataFrame :=
  fun w => match tables w !! df with
           | Some d => (inr d, w)
           | None => (inl ReferenceError, w)
           end.

Definition new_table (d : DataFrame) : M df_ref :=
  fun w => (inr (length (tables w)), set_tables w (tables w ++ [d])).

(** [df.columns] *)
Definition columns (df : df_ref) : M (list string) :=
  d <- load df ;; ret (map fst d).

Fixpoint assoc {V} (k : string) (l : list (string * V)) : option V :=
  match l with
  | [] => None
  | (k', v) :: l' => if String.eqb k k' then Some v else assoc k l'
  end.

(** [df[name]] *)
Definition get_column (df : df_ref) (name : string) : M Series :=
  d <- load df ;;
  match assoc name d with
  | Some s => ret s
  | None => raise (ColumnNotFoundError name)
  end.

Definition opt_lift (f : Z -> Z -> Z) (c acc : option Z) : option Z :=
  match c, acc with
  | Some z, Some m => Some (f z m)
  | Some z, None => Some z
  | None, _ => acc
  end.

(** [Series.max()] and [Series.min()]: nulls are skipped, an all-null or
    empty column gives [None]. *)
Definition series_max (s : Series) : option Z := fold_right (opt_lift Z.max) None s.
Definition series_min (s : Series) : option Z := fold_right (opt_lift Z.min) None s.

(** ** pyplot *)

Definition blank_axes : Axes := [].

Definition new_figure (nrows ncols : nat) (figsize : Z * Z) : Figure :=
  mkFigure nrows ncols figsize (replicate (nrows * ncols) blank_axes) false.

Definition grid_refs (f : fig_ref) (nrows ncols : nat) : list (list ax_ref) :=
  map (fun r => map (fun c => (f, r * ncols + c)) (seq 0 ncols)) (seq 0 nrows).

(** [plt.subplots(nrows, ncols, figsize=figsize, squeeze=False)]: a new
    figure and the two-dimensional array of its axes.  [create_3x2_sheet]
    leaves [squeeze] at its default, which changes nothing for a grid
    with more than one row and more than one column. *)
Definition plt_subplots (nrows ncols : Z) (figsize : Z * Z)
  : M (fig_ref * list (list ax_ref)) :=
  if (nrows <=? 0)%Z || (ncols <=? 0)%Z
  then raise (ValueError "Number of rows and columns must be a positive integer")
  else fun w =>
    let f := length (figures w) in
    (inr (f, grid_refs f (Z.to_nat nrows) (Z.to_nat ncols)),
     set_figures w (figures w ++ [new_figure (Z.to_nat nrows) (Z.to_nat ncols) figsize])).

(** [axes.flatten()] *)
Definition flatten {A} (a : list (list A)) : list A := concat a.

(** A renderer adds its artist to the axes it was given. *)
Definition draw (ax : ax_ref) (a : Artist) : M unit :=
  fun w => match figures w !! ax.1 with
           | Some F =>
             match fig_axes F !! ax.2 with
             | Some arts =>
               (inr tt,
                set_figures w
                  (<[ax.1 := set_axes F (<[ax.2 := arts ++ [a]]> (fig_axes F))]>
                     (figures w)))
             | None => (inl ReferenceError, w)
             end
           | None => (inl ReferenceError, w)
           end.

(** [fig.tight_layout()] *)
Definition tight_layout (fig : fig_ref) : M unit :=
  fun w => match figures w !! fig with
           | Some F => (inr tt, set_figures w (<[fig := set_tight F]> (figures w)))
           | None => (inl ReferenceError, w)
           end.

(** ** Collaborators of [reports.py]

    [alphainspect.ic], [alphainspect.portfolio], [alphainspect.turnover]
    and [alphainspect.utils] do the statistics.  Their arithmetic is a
    parameter of the development. *)
Class Analytics := {
  ic_of : DataFrame -> list string -> list string -> exn + DataFrame;
  cum_return_by_quantile_of : DataFrame -> string -> Z -> string -> exn + DataFrame;
  auto_correlation_of : DataFrame -> string -> list Z -> exn + DataFrame;
  quantile_turnover_of : DataFrame -> list Z -> string -> exn + DataFrame;
  ic_summary : DataFrame -> string -> PanelSummary;
  hist_summary : DataFrame -> string -> PanelSummary }.

Section Sheets.
Context `{Analytics}.

(** Modelled from the spec: [calc_ic] of [alphainspect.ic], whose source
    is missing.  Like the other three analytic adapters it is a pure
    function of the table it is given and of its other arguments ("four
    pure functions", 4.1): it reads its input table, may fail (as with
    a missing column), and returns a fresh table. *)
Definition calc_ic (df : df_ref) (factors forward_returns : list string) : M df_ref :=
  d <- load df ;; r <- lift (ic_of d factors forward_returns) ;; new_table r.

(** Modelled from the spec: [calc_cum_return_by_quantile] of
    [alphainspect.portfolio], whose source is missing; a pure adapter
    (4.1). *)
Definition calc_cum_return_by_quantile (df : df_ref) (fwd_ret_1 : string)
    (period : Z) (factor_quantile : string) : M df_ref :=
  d <- load df ;;
  r <- lift (cum_return_by_quantile_of d fwd_ret_1 period factor_quantile) ;;
  new_table r.

(** Modelled from the spec: [calc_auto_correlation] of
    [alphainspect.turnover], whose source is missing; a pure adapter
    (4.1). *)
Definition calc_auto_correlation (df : df_ref) (factor : string)
    (periods : list Z) : M df_ref :=
  d <- load df ;; r <- lift (auto_correlation_of d factor periods) ;; new_table r.

(** Modelled from the spec: [calc_quantile_turnover] of
    [alphainspect.turnover], whose source is missing; a pure adapter
    (4.1). *)
Definition calc_quantile_turnover (df : df_ref) (periods : list Z)
    (factor_quantile : string) : M df_ref :=
  d <- load df ;;
  r <- lift (quantile_turnover_of d periods factor_quantile) ;;
  new_table r.

(** Modelled from the spec: [plot_ic_ts] of [alphainspect.ic], whose
    source is missing.  Like the other renderers it draws on the surface
    it is given, from the series and the display options it is given,
    and never mutates its input series (4.2); its summary mapping holds
    statistics of the series (3), the reference lines being annotation
    only (8). *)
Definition plot_ic_ts (df_ic : df_ref) (col : string)
    (axvlines : list string) (ax : ax_ref) : M PanelSummary :=
  d <- load df_ic ;; draw ax (IcTs d col axvlines) ;; ret (ic_summary d col).

(** Modelled from the spec: [plot_ic_heatmap_monthly] of
    [alphainspect.ic], whose source is missing; a renderer (4.2). *)
Definition plot_ic_heatmap_monthly (df_ic : df_ref) (col : string)
    (ax : ax_ref) : M unit :=
  d <- load df_ic ;; draw ax (IcHeatmapMonthly d col).

(** Modelled from the spec: [plot_hist] of [alphainspect.utils], whose
    source is missing; a renderer that returns the histogram's summary
    mapping (4.1, 4.2). *)
Definition plot_hist (df : df_ref) (col : string) (ax : ax_ref) : M PanelSummary :=
  d <- load df ;; draw ax (Hist d col) ;; ret (hist_summary d col).

(** Modelled from the spec: [plot_quantile_portfolio] of
    [alphainspect.portfolio], whose source is missing; a renderer (4.2). *)
Definition plot_quantile_portfolio (df_cum_ret : df_ref) (fwd_ret_1 : string)
    (period : Z) (axvlines : list string) (ax : ax_ref) : M unit :=
  d <- load df_cum_ret ;; draw ax (QuantilePortfolio d fwd_ret_1 period axvlines).

(** Modelled from the spec: [plot_factor_auto_correlation] of
    [alphainspect.turnover], whose source is missing; a renderer (4.2). *)
Definition plot_factor_auto_correlation (df_auto_corr : df_ref)
    (axvlines : list string) (ax : ax_ref) : M unit :=
  d <- load df_auto_corr ;; draw ax (FactorAutoCorrelation d axvlines).

(** Modelled from the spec: [plot_turnover_quantile] of
    [alphainspect.turnover], whose source is missing; a renderer (4.2). *)
Definition plot_turnover_quantile (df_turnover : df_ref) (quantile : option Z)
    (factor_quantile : string) (periods : list Z) (axvlines : list string)
    (ax : ax_ref) : M unit :=
  d <- load df_turnover ;;
  draw ax (TurnoverQuantile d quantile factor_quantile periods axvlines).

(** ** The sheet builders of [reports.py] *)

(** Modelled from the spec: [_QUANTILE_] of the package root
    [alphainspect/__init__.py], whose source is missing; the data model
    (3) names the column. *)
Definition _QUANTILE_ : string := "factor_quantile".

Definition create_2x2_sheet (df_pl : df_ref) (factor forward_return fwd_ret_1 : string)
    (period : Z) (factor_quantile : string) (figsize : Z * Z)
    (axvlines : list string) : M pyobj :=
  fa <- plt_subplots 2 2 figsize ;;
  let fig := fa.1 in
  let axes := flatten fa.2 in
  (* IC *)
  df_ic <- calc_ic df_pl [factor] [forward_return] ;;
  cols <- columns df_ic ;;
  col <- getitem cols 1 ;;
  ax0 <- getitem axes 0 ;;
  plot_ic_ts df_ic col axvlines ax0 ;;
  ax1 <- getitem axes 1 ;;
  plot_ic_heatmap_monthly df_ic col ax1 ;;
  (* factor histogram *)
  ax2 <- getitem axes 2 ;;
  plot_hist df_pl factor ax2 ;;
  (* cumulative return *)
  df_cum_ret <- calc_cum_return_by_quantile df_pl fwd_ret_1 period factor_quantile ;;
  ax3 <- getitem axes 3 ;;
  plot_quantile_portfolio df_cum_ret fwd_ret_1 period axvlines ax3 ;;
  tight_layout fig ;;
  ret PyNone.

Definition create_1x3_sheet (df_pl : df_ref) (factor forward_return fwd_ret_1 : string)
    (period : Z) (factor_quantile : string) (figsize : Z * Z)
    (axvlines : list string) : M pyobj :=
  fa <- plt_subplots 1 3 figsize ;;
  let fig := fa.1 in
  let axes := flatten fa.2 in
  (* IC *)
  df_ic <- calc_ic df_pl [factor] [forward_return] ;;
  cols <- columns df_ic ;;
  col <- getitem cols 1 ;;
  ax0 <- getitem axes 0 ;;
  ic_dict <- plot_ic_ts df_ic col axvlines ax0 ;;
  (* cumulative return *)
  df_cum_ret <- calc_cum_return_by_quantile df_pl fwd_ret_1 period factor_quantile ;;
  ax1 <- getitem axes 1 ;;
  plot_quantile_portfolio df_cum_ret fwd_ret_1 period axvlines ax1 ;;
  (* factor histogram *)
  ax2 <- getitem axes 2 ;;
  hist_dict <- plot_hist df_pl factor ax2 ;;
  tight_layout fig ;;
  ret (PyTuple4 fig ic_dict hist_dict df_cum_ret).

Definition create_2x3_sheet (df_pl : df_ref) (factor forward_return fwd_ret_1 : string)
    (periods : list Z) (factor_quantile : string) (figsize : Z * Z)
    (axvlines : list string) : M pyobj :=
  let count := (length periods + 3)%nat in
  fa <- plt_subplots 2 (ceil (true_div (Z.of_nat count) 2)) figsize ;;
  let fig := fa.1 in
  let axes := flatten fa.2 in
  (* IC *)
  df_ic <- calc_ic df_pl [factor] [forward_return] ;;
  cols <- columns df_ic ;;
  col <- getitem cols 1 ;;
  ax0 <- getitem axes 0 ;;
  plot_ic_ts df_ic col axvlines ax0 ;;
  ax1 <- getitem axes 1 ;;
  plot_hist df_ic col ax1 ;;
  ax2 <- getitem axes 2 ;;
  plot_ic_heatmap_monthly df_ic col ax2 ;;
  (* cumulative returns *)
  for_each (enumerate periods) (fun ip =>
    let i := ip.1 in
    let period := ip.2 in
    df_cum_ret <- calc_cum_return_by_quantile df_pl fwd_ret_1 period factor_quantile ;;
    ax <- getitem axes (3 + i) ;;
    plot_quantile_portfolio df_cum_ret fwd_ret_1 period axvlines ax) ;;
  tight_layout fig ;;
  ret PyNone.

Definition create_3x2_sheet (df_pl : df_ref) (factor forward_return fwd_ret_1 : string)
    (period : Z) (factor_quantile : string) (periods : list Z)
    (figsize : Z * Z) (axvlines : list string) : M pyobj :=
  fa <- plt_subplots 3 2 figsize ;;
  let fig := fa.1 in
  let axes := fa.2 in
  (* IC *)
  df_ic <- calc_ic df_pl [factor] [forward_return] ;;
  cols <- columns df_ic ;;
  col <- getitem cols 1 ;;
  ax00 <- getitem2 axes 0 0 ;;
  plot_ic_ts df_ic col axvlines ax00 ;;
  ax01 <- getitem2 axes 0 1 ;;
  plot_hist df_ic col ax01 ;;
  ax10 <- getitem2 axes 1 0 ;;
  plot_ic_heatmap_monthly df_ic col ax10 ;;
  (* net value curve *)
  df_cum_ret <- calc_cum_return_by_quantile df_pl fwd_ret_1 period factor_quantile ;;
  ax11 <- getitem2 axes 1 1 ;;
  plot_quantile_portfolio df_cum_ret fwd_ret_1 period axvlines ax11 ;;
  (* turnover *)
  df_auto_corr <- calc_auto_correlation df_pl factor periods ;;
  df_turnover <- calc_quantile_turnover df_pl periods factor_quantile ;;
  ax20 <- getitem2 axes 2 0 ;;
  plot_factor_auto_correlation df_auto_corr axvlines ax20 ;;
  s_min <- get_column df_turnover factor_quantile ;;
  s_max <- get_column df_turnover factor_quantile ;;
  let q_min := series_min s_min in
  let q_max := series_max s_max in
  ax21 <- getitem2 axes 2 1 ;;
  plot_turnover_quantile df_turnover q_max factor_quantile periods axvlines ax21 ;;
  tight_layout fig ;;
  ret PyNone.

(** Keyword defaults of the four builders. *)
Definition default_period : Z := 5.
Definition default_periods_2x3 : list Z := [2; 5; 10]%Z.
Definition default_periods_3x2 : list Z := [1; 5; 10; 20]%Z.
Definition default_figsize_2x2 : Z * Z := (12, 9)%Z.
Definition default_figsize_1x3 : Z * Z := (12, 4)%Z.
Definition default_figsize_2x3 : Z * Z := (12, 9)%Z.
Definition default_figsize_3x2 : Z * Z := (12, 14)%Z.

End Sheets.

(** ** Python strings *)

(** The double-quote character. *)
Definition dquote_char : ascii := Ascii false true false false false true false false.
Definition dquote : string := String dquote_char EmptyString.

(** [s.endswith(suffix)]: the suffix is [s] itself or ends what follows
    the first character of [s]. *)
Fixpoint endswith (s suffix : string) : bool :=
  String.eqb s suffix ||
  match s with
  | EmptyString => false
  | String _ s' => endswith s' suffix
  end.

Fixpoint replace_from (old new : string) (skip : nat) (s : string) : string :=
  match s with
  | EmptyString => EmptyString
  | String c s' =>
    match skip with
    | S k => replace_from old new k s'
    | O => if String.prefix old s
           then new +:+ replace_from old new (String.length old - 1) s'
           else String c (replace_from old new 0 s')
    end
  end.

(** [s.replace(old, new)] for a non-empty [old]: every occurrence, left
    to right, without overlap. *)
Definition replace (old new s : string) : string := replace_from old new 0 s.

Definition upper_char (c : ascii) : ascii :=
  let n := nat_of_ascii c in
  if (97 <=? n)%nat && (n <=? 122)%nat then ascii_of_nat (n - 32) else c.

(** [s.upper()], on ASCII text. *)
Fixpoint upper (s : string) : string :=
  match s with
  | EmptyString => EmptyString
  | String c s' => String (upper_char c) (upper s')
  end.

(** [sep.join(parts)] *)
Fixpoint join (sep : string) (parts : list string) : string :=
  match parts with
  | [] => EmptyString
  | [p] => p
  | p :: ps => p +:+ sep +:+ join sep ps
  end.

(** The values a caller passes as extra keyword arguments. *)
Inductive pyvalue :=
| VStr (s : string)
| VInt (z : Z)
| VBool (b : bool)
| VNone.

Definition str_of_int (z : Z) : string := NilZero.string_of_int (Z.to_int z).

(** [str(v)] *)
Definition py_str (v : pyvalue) : string :=
  match v with
  | VStr s => s
  | VInt z => str_of_int z
  | VBool true => "True"
  | VBool false => "False"
  | VNone => "None"
  end.

(** A Python [dict] with string keys: bindings in insertion order, a key
    bound again keeps its place and takes the new value. *)
Definition pydict := list (string * string).

Fixpoint dict_set (k v : string) (d : pydict) : pydict :=
  match d with
  | [] => [(k, v)]
  | (k', v') :: d' =>
    if String.eqb k k' then (k, v) :: d' else (k', v') :: dict_set k v d'
  end.

(** ** base64 *)

Definition b64_alphabet : string :=
  "ABCDEFGHIJKLMNOPQRSTUVWXYZabcdefghijklmnopqrstuvwxyz0123456789+/".

Definition b64_pad : ascii := "="%char.

Definition b64_char (n : N) : ascii :=
  match String.get (N.to_nat n) b64_alphabet with
  | Some c => c
  | None => b64_pad
  end.

(** The four six-bit groups of three bytes [x], [y], [z]. *)
Definition sextet1 (x : N) : N := N.shiftr x 2.
Definition sextet2 (x y : N) : N := N.lor (N.shiftl (N.land x 3) 4) (N.shiftr y 4).
Definition sextet3 (y z : N) : N := N.lor (N.shiftl (N.land y 15) 2) (N.shiftr z 6).
Definition sextet4 (z : N) : N := N.land z 63.

(** [base64.b64encode(bs).decode()]: three bytes give four characters of
    six bits each; one or two trailing bytes are completed with zero bits
    and the output is padded with [=]. *)
Fixpoint b64encode (bs : list Byte.byte) : string :=
  match bs with
  | [] => EmptyString
  | [a] =>
    let x := Byte.to_N a in
    String (b64_char (sextet1 x))
      (String (b64_char (sextet2 x 0))
         (String b64_pad (String b64_pad EmptyString)))
  | [a; b] =>
    let x := Byte.to_N a in
    let y := Byte.to_N b in
    String (b64_char (sextet1 x))
      (String (b64_char (sextet2 x y))
         (String (b64_char (sextet3 y 0))
            (String b64_pad EmptyString)))
  | a :: b :: c :: rest =>
    let x := Byte.to_N a in
    let y := Byte.to_N b in
    let z := Byte.to_N c in
    String (b64_char (sextet1 x))
      (String (b64_char (sextet2 x y))
         (String (b64_char (sextet3 y z))
            (String (b64_char (sextet4 z)) (b64encode rest))))
  end.

Fixpoint index_from (i : N) (c : ascii) (s : string) : option N :=
  match s with
  | EmptyString => None
  | String c' s' => if Ascii.eqb c c' then Some i else index_from (N.succ i) c s'
  end.

(** The six-bit value of a base64 character. *)
Definition b64_index (c : ascii) : option N := index_from 0 c b64_alphabet.

Definition byte_of (n : N) : option Byte.byte := Byte.of_N n.

(** The inverse reading of [b64encode], on its canonical output. *)
Fixpoint b64decode (s : string) : option (list Byte.byte) :=
  match s with
  | EmptyString => Some []
  | String c1 (String c2 (String c3 (String c4 rest))) =>
    match b64_index c1, b64_index c2 with
    | Some s1, Some s2 =>
      match byte_of (N.lor (N.shiftl s1 2) (N.shiftr s2 4)) with
      | Some a =>
        if Ascii.eqb c3 b64_pad then
          if Ascii.eqb c4 b64_pad && String.eqb rest EmptyString
          then Some [a] else None
        else
          match b64_index c3 with
          | Some s3 =>
            match byte_of (N.lor (N.shiftl (N.land s2 15) 4) (N.shiftr s3 2)) with
            | Some b =>
              if Ascii.eqb c4 b64_pad then
                if String.eqb rest EmptyString then Some [a; b] else None
              else
                match b64_index c4 with
                | Some s4 =>
                  match byte_of (N.lor (N.shiftl (N.land s3 3) 6) s4),
                        b64decode rest with
                  | Some c, Some tl => Some (a :: b :: c :: tl)
                  | _, _ => None
                  end
                | None => None
                end
            | None => None
            end
          | None => None
          end
      | None => None
      end
    | _, _ => None
    end
  | _ => None
  end.

(** ** pathlib, POSIX flavour *)

Definition slash : ascii := "/"%char.

Fixpoint split_slash (cur : string) (s : string) : list string :=
  match s with
  | EmptyString => [cur]
  | String c s' =>
    if Ascii.eqb c slash
    then cur :: split_slash EmptyString s'
    else split_slash (cur +:+ String c EmptyString) s'
  end.

(** The root of a POSIX path: exactly two leading slashes are kept, any
    other number collapses to one. *)
Definition posix_root (p : string) : string :=
  if String.prefix "///" p then "/"
  else if String.prefix "//" p then "//"
  else if String.prefix "/" p then "/"
  else EmptyString.

(** The components of a path: empty ones and [.] are dropped. *)
Definition posix_parts (p : string) : list string :=
  List.filter (fun c => negb (String.eqb c EmptyString || String.eqb c "."))
              (split_slash EmptyString p).

Definition posix_str (root : string) (parts : list string) : string :=
  match root, parts with
  | EmptyString, [] => "."
  | _, _ => root +:+ join "/" parts
  end.

(** [str(Path(p).absolute())] with current directory [cwd]. *)
Definition posix_absolute (cwd p : string) : string :=
  match posix_root p with
  | EmptyString => posix_str (posix_root cwd) (posix_parts cwd ++ posix_parts p)
  | root => posix_str root (posix_parts p)
  end.

(** ** The platform under the export adapter *)

Class Platform := {
  os_name : string;                                 (* os.name *)
  path_absolute : string -> string;                 (* str(Path(p).absolute()) *)
  savefig_bytes : Figure -> string -> exn + list Byte.byte;
                                                    (* the rendering backend *)
  exit_status : list string -> string -> Z }.       (* what os.system answers,
                                                       given what ran before *)

Section ExportAdapter.
Context `{Platform}.

(** [os.system(cmd)] *)
Definition os_system (cmd : string) : M Z :=
  fun w => (inr (exit_status (spawned w) cmd), set_spawned w (spawned w ++ [cmd])).

(** [print(line)] *)
Definition print (line : string) : M unit :=
  fun w => (inr tt, set_stdout w (stdout w ++ [line])).

(** [io.BytesIO()] *)
Definition io_BytesIO : M buf_ref :=
  fun w => (inr (length (buffers w)), set_buffers w (buffers w ++ [[]])).

(** [buf.getvalue()] *)
Definition getvalue (buf : buf_ref) : M (list Byte.byte) :=
  fun w => match buffers w !! buf with
           | Some bs => (inr bs, w)
           | None => (inl ReferenceError, w)
           end.

(** Where [Figure.savefig] writes: a file name or a binary file-like object. *)
Inductive sink :=
| ToPath (path : string)
| ToBuffer (buf : buf_ref).

(** [fig.savefig(target, format=format)] *)
Definition savefig (fig : fig_ref) (target : sink) (format : string) : M unit :=
  fun w =>
    match figures w !! fig with
    | None => (inl ReferenceError, w)
    | Some F =>
      match savefig_bytes F format with
      | inl e => (inl e, w)
      | inr bs =>
        match target with
        | ToPath p => (inr tt, set_files w (<[path_absolute p := bs]> (files w)))
        | ToBuffer b =>
          match buffers w !! b with
          | Some old => (inr tt, set_buffers w (<[b := old ++ bs]> (buffers w)))
          | None => (inl ReferenceError, w)
          end
        end
      end
    end.

(** ** The export adapter of [reports.py] *)

Definition fig_to_img (fig : fig_ref) (format : option string) : M string :=
  let format := default "png" format in
  buf <- io_BytesIO ;;
  savefig fig (ToBuffer buf) format ;;
  bs <- getvalue buf ;;
  ret ("<img src=" +:+ dquote +:+ "data:image/" +:+ format +:+ ";base64,"
         +:+ b64encode bs +:+ dquote +:+ " />").

(** The f-string of the conversion command. *)
Definition nbconvert_command (template output no_input no_prompt execute : string)
    (timeout : Z) : string :=
  "jupyter nbconvert " +:+ dquote +:+ template +:+ dquote
    +:+ " --to=html --output=" +:+ dquote +:+ output +:+ dquote
    +:+ " " +:+ no_input +:+ " " +:+ no_prompt +:+ " " +:+ execute
    +:+ " --allow-errors --ExecutePreprocessor.timeout=" +:+ str_of_int timeout.

(** [{k.upper(): str(v) for k, v in kwargs.items()}] *)
Definition env_bindings (kwargs : list (string * pyvalue)) : pydict :=
  fold_left (fun d kv => dict_set (upper kv.1) (py_str kv.2) d) kwargs [].

Definition set_line (kv : string * string) : string :=
  "set " +:+ kv.1 +:+ "=" +:+ kv.2.
Definition export_line (kv : string * string) : string :=
  "export " +:+ kv.1 +:+ "=" +:+ kv.2.

Definition ipynb_to_html (template : string) (output : option string)
    (no_input no_prompt execute : bool) (timeout : Z) (open_browser : bool)
    (kwargs : list (string * pyvalue)) : M Z :=
  let template := path_absolute template in
  if negb (endswith template ".ipynb")
  then raise (ValueError "template must be a ipynb file")
  else
    let output :=
      match output with
      | None => replace ".ipynb" ".html" template
      | Some o => o
      end in
    let output := path_absolute output in
    let no_input := if no_input then "--no-input" else EmptyString in
    let no_prompt := if no_prompt then "--no-prompt" else EmptyString in
    let execute := if execute then "--execute" else EmptyString in
    let command := nbconvert_command template output no_input no_prompt execute timeout in
    let kwargs := env_bindings kwargs in
    let cmds :=
      if String.eqb os_name "nt"
      then map set_line kwargs ++ [command]
      else map export_line kwargs ++ [command] in
    let commands := join "&&" cmds in
    print ("system: " +:+ commands) ;;
    r <- os_system commands ;;
    (if (r =? 0)%Z && open_browser
     then os_system (dquote +:+ output +:+ dquote) ;; ret tt
     else ret tt) ;;
    ret r.

(** The output path the conversion uses, the shell syntax of one
    binding, and the composite command line, named for the statements
    about [ipynb_to_html]. *)
Definition resolved_output (template : string) (output : option string) : string :=
  path_absolute
    match output with
    | None => replace ".ipynb" ".html" (path_absolute template)
    | Some o => o
    end.

Definition shell_line : string * string -> string :=
  if String.eqb os_name "nt" then set_line else export_line.

Definition composite_command (template : string) (output : option string)
    (no_input no_prompt execute : bool) (timeout : Z)
    (kwargs : list (string * pyvalue)) : string :=
  join "&&"
    (map shell_line (env_bindings kwargs)
       ++ [nbconvert_command (path_absolute template) (resolved_output template output)
             (if no_input then "--no-input" else EmptyString)
             (if no_prompt then "--no-prompt" else EmptyString)
             (if execute then "--execute" else EmptyString) timeout]).

End ExportAdapter.

(** ** Reasoning vocabulary *)

(** A triple with one postcondition for a normal return and one for a
    raised exception. *)
Definition triple {A} (P : World -> Prop) (m : M A)
    (Q : A -> World -> Prop) (E : exn -> World -> Prop) : Prop :=
  forall w, P w ->
    match m w with
    | (inr a, w') => Q a w'
    | (inl e, w') => E e w'
    end.

(** The world [w0] after a builder allocated the tables [T] and the
    figures [Fs]; nothing else differs. *)
Definition ext (w0 : World) (T : list DataFrame) (Fs : list Figure) : World :=
  mkWorld (tables w0 ++ T) (figures w0 ++ Fs) (buffers w0) (files w0)
          (environ w0) (spawned w0) (stdout w0).

(** The table an artist was drawn from, and the quantile column it was
    told to use, if it takes one. *)
Definition artist_frame (a : Artist) : DataFrame :=
  match a with
  | IcTs d _ _ => d
  | IcHeatmapMonthly d _ => d
  | Hist d _ => d
  | QuantilePortfolio d _ _ _ => d
  | FactorAutoCorrelation d _ => d
  | TurnoverQuantile d _ _ _ _ => d
  end.

Definition artist_quantile_column (a : Artist) : option string :=
  match a with
  | TurnoverQuantile _ _ fq _ _ => Some fq
  | _ => None
  end.

(** The artists of a figure, slot by slot. *)
Definition fig_artists (F : Figure) : list Artist := concat (fig_axes F).

(** The slots of a figure that hold at least one artist. *)
Definition drawn_panels (F : Figure) : nat :=
  length (List.filter (fun ax => negb (Nat.eqb (length ax) 0)) (fig_axes F)).

Section Provenance.
Context `{Analytics}.

(** [Derived d fq t]: the table [t] is the snapshot [d] itself or what an
    analytic adapter computes from [d], with [fq] as the quantile column
    wherever the adapter takes one. *)
Inductive Derived (d : DataFrame) (fq : string) : DataFrame -> Prop :=
| derived_input : Derived d fq d
| derived_ic fs rs t : ic_of d fs rs = inr t -> Derived d fq t
| derived_cum_return c p t :
    cum_return_by_quantile_of d c p fq = inr t -> Derived d fq t
| derived_auto_correlation f ps t :
    auto_correlation_of d f ps = inr t -> Derived d fq t
| derived_turnover ps t :
    quantile_turnover_of d ps fq = inr t -> Derived d fq t.

Definition sourced (d : DataFrame) (fq : string) (a : Artist) : Prop :=
  Derived d fq (artist_frame a) /\
  (forall q, artist_quantile_column a = Some q -> q = fq).

End Provenance.

Section Invariant.
Context `{Analytics}.

(** Every table and every figure a build has allocated so far comes from
    the snapshot [d]; the world [w0] the build started in is otherwise
    intact. *)
Definition sheet_inv (w0 : World) (d : DataFrame) (fq : string) (w : World) : Prop :=
  exists T Fs, w = ext w0 T Fs /\
    Forall (Derived d fq) T /\
    Forall (fun F => Forall (sourced d fq) (fig_artists F)) Fs.

(** What a finished (or failed) build leaves behind, seen from the
    caller: its table is what it was, and whatever was allocated comes
    from that table. *)
Definition read_only_single_source (w0 : World) (df_pl : df_ref) (d : DataFrame)
    (fq : string) (r : (exn + pyobj) * World) : Prop :=
  tables r.2 !! df_pl = Some d /\ sheet_inv w0 d fq r.2.

(** A handle a build may read: the caller's table or a table the build
    allocated. *)
Definition readable (w0 : World) (df_pl : df_ref) (r : df_ref) : Prop :=
  r = df_pl \/ length (tables w0) <= r.

(** An axes handle of a figure the build allocated. *)
Definition fresh_ax (w0 : World) (ax : ax_ref) : Prop :=
  length (figures w0) <= ax.1.

End Invariant.

(** The panels of the cumulative-return curves, one per holding period. *)
Definition curve_panels (fwd_ret_1 : string) (axvlines : list string)
    (periods : list Z) (curves : list DataFrame) : list Axes :=
  zip_with (fun p t => [QuantilePortfolio t fwd_ret_1 p axvlines]) periods curves.

(** What a call hands back to its caller: the value, with the returned
    curve read through its handle, or the exception. *)
Definition returned_series (r : (exn + pyobj) * World)
  : exn + option (PanelSummary * PanelSummary * option DataFrame) :=
  match r with
  | (inl e, _) => inl e
  | (inr (PyTuple4 _ ic hist c), w') => inr (Some (ic, hist, tables w' !! c))
  | (inr _, _) => inr None
  end.

Section Outcome.
Context `{Analytics}.

(** What the 1x3 build hands back, read off the collaborators alone. *)
Definition series_of_1x3 (w : World) (df_pl : df_ref)
    (factor forward_return fwd_ret_1 : string) (period : Z) (fq : string)
  : exn + option (PanelSummary * PanelSummary * option DataFrame) :=
  match tables w !! df_pl with
  | None => inl ReferenceError
  | Some d =>
    match ic_of d [factor] [forward_return] with
    | inl e => inl e
    | inr t_ic =>
      match map fst t_ic !! 1 with
      | None => inl IndexError
      | Some col =>
        match cum_return_by_quantile_of d fwd_ret_1 period fq with
        | inl e => inl e
        | inr t_cum =>
          inr (Some (ic_summary t_ic col, hist_summary d factor, Some t_cum))
        end
      end
    end
  end.

End Outcome.


(** ** Concrete collaborators, for evaluation *)

Definition column_or_error (name : string) (d : DataFrame) : exn + Series :=
  match assoc name d with
  | Some s => inr s
  | None => inl (ColumnNotFoundError name)
  end.

Definition demo_ic (d : DataFrame) (fs rs : list string) : exn + DataFrame :=
  match fs, rs with
  | [f], [r] =>
    match column_or_error "date" d, column_or_error f d, column_or_error r d with
    | inr dates, inr xs, inr ys =>
      inr [("date", dates);
           (f +:+ "__" +:+ r, zip_with (opt_lift Z.mul) xs ys)]
    | inl e, _, _ | _, inl e, _ | _, _, inl e => inl e
    end
  | _, _ => inl (AnalyticsError "one factor and one forward return")
  end.

Definition demo_cum_return (d : DataFrame) (r : string) (period : Z) (fq : string)
  : exn + DataFrame :=
  if (period <=? 0)%Z then inl (AnalyticsError "period must be positive") else
  match column_or_error "date" d, column_or_error r d, column_or_error fq d with
  | inr dates, inr ys, inr qs =>
    inr [("date", dates); (fq, qs);
         ("cum_ret", map (opt_lift Z.mul (Some period)) ys)]
  | inl e, _, _ | _, inl e, _ | _, _, inl e => inl e
  end.

Definition demo_auto_correlation (d : DataFrame) (f : string) (ps : list Z)
  : exn + DataFrame :=
  match column_or_error "date" d, column_or_error f d with
  | inr dates, inr xs =>
    inr (("date", dates) :: map (fun p => ("AC" +:+ str_of_int p, xs)) ps)
  | inl e, _ | _, inl e => inl e
  end.

Definition demo_turnover (d : DataFrame) (ps : list Z) (fq : string)
  : exn + DataFrame :=
  match column_or_error "date" d, column_or_error fq d with
  | inr dates, inr qs =>
    inr (("date", dates) :: (fq, qs)
           :: map (fun p => ("turnover_" +:+ str_of_int p, qs)) ps)
  | inl e, _ | _, inl e => inl e
  end.

Definition demo_summary (d : DataFrame) (col : string) : PanelSummary :=
  match assoc col d with
  | Some s => [("count", inject_Z (Z.of_nat (length s)))]
  | None => []
  end.

Definition demo_analytics : Analytics :=
  {| ic_of := demo_ic;
     cum_return_by_quantile_of := demo_cum_return;
     auto_correlation_of := demo_auto_correlation;
     quantile_turnover_of := demo_turnover;
     ic_summary := demo_summary;
     hist_summary := demo_summary |}.

(** Three dates, five entities' worth of quantile labels, out of order. *)
Definition demo_table : DataFrame :=
  [("date", [Some 1; Some 1; Some 2; Some 2; Some 3]%Z);
   ("alpha", [Some 4; Some 9; None; Some 7; Some 2]%Z);
   ("ret_5", [Some 1; Some (-2); Some 3; None; Some 5]%Z);
   ("ret_1", [Some 1; Some 1; Some (-1); Some 2; Some 0]%Z);
   ("factor_quantile", [Some 3; Some 5; Some 1; Some 4; Some 2]%Z)].

Definition empty_world : World :=
  mkWorld [] [] [] ∅ ∅ [] [].

Definition demo_world : World := set_tables empty_world [demo_table].

Definition bytes_of_string (s : string) : list Byte.byte :=
  map Ascii.byte_of_ascii (list_ascii_of_string s).

(** A rendering backend that knows two formats. *)
Definition demo_savefig (F : Figure) (format : string) : exn + list Byte.byte :=
  if String.eqb format "png" || String.eqb format "svg"
  then inr (bytes_of_string (format +:+ ":" +:+ str_of_int (Z.of_nat (drawn_panels F))))
  else inl (ValueError "unsupported format").

(** A POSIX machine with current directory [cwd] whose shell answers
    [status]. *)
Definition posix_platform (cwd : string) (status : list string -> string -> Z)
  : Platform :=
  {| os_name := "posix";
     path_absolute := posix_absolute cwd;
     savefig_bytes := demo_savefig;
     exit_status := status |}.

Definition demo_platform : Platform :=
  posix_platform "/home/quant" (fun _ _ => 0%Z).

(** The tables the demonstration collaborators compute from
    [demo_table]. *)
Definition from_inr {A} (dflt : A) (r : exn + A) : A :=
  match r with
  | inr a => a
  | inl _ => dflt
  end.

Definition demo_ic_table : DataFrame :=
  from_inr [] (demo_ic demo_table ["alpha"] ["ret_5"]).

Definition demo_curve (period : Z) : DataFrame :=
  from_inr [] (demo_cum_return demo_table "ret_1" period "factor_quantile").

Definition demo_ac_table : DataFrame :=
  from_inr [] (demo_auto_correlation demo_table "alpha" [1; 5]%Z).

Definition demo_turnover_table : DataFrame :=
  from_inr [] (demo_turnover demo_table [1; 5]%Z "factor_quantile").

(** A world whose pyplot registry holds one blank 1x1 figure. *)
Definition demo_figure_world : World :=
  set_figures empty_world [new_figure 1 1 (4, 3)%Z].

(** A machine whose shell fails every command with status 256. *)
Definition failing_platform : Platform :=
  posix_platform "/home/quant" (fun _ _ => 256%Z).

(** A notebook inside a Jupyter checkpoint directory. *)
Definition checkpoint_template : string :=
  "/home/quant/.ipynb_checkpoints/demo-checkpoint.ipynb".

(** ** Vocabulary for further properties of the export adapter *)


(** The named parameters of [ipynb_to_html]. *)
Definition ipynb_to_html_parameters : list string :=
  ["template"; "output"; "no_input"; "no_prompt"; "execute"; "timeout";
   "open_browser"].

(** How often a character occurs in a string. *)
Fixpoint count_char (c : ascii) (s : string) : nat :=
  match s with
  | EmptyString => 0
  | String c' s' => (if Ascii.eqb c c' then 1 else 0) + count_char c s'
  end.

(** [s.find(sub)]: where [sub] first occurs in [s], if it does. *)
Fixpoint str_find (sub s : string) : option nat :=
  if String.prefix sub s then Some 0
  else match s with
       | EmptyString => None
       | String _ s' => option_map S (str_find sub s')
       end.

(** Collaborators whose IC table has the date column only. *)
Definition narrow_analytics : Analytics :=
  {| ic_of := fun d _ _ =>
       match column_or_error "date" d with
       | inr dates => inr [("date", dates)]
       | inl e => inl e
       end;
     cum_return_by_quantile_of := demo_cum_return;
     auto_correlation_of := demo_auto_correlation;
     quantile_turnover_of := demo_turnover;
     ic_summary := demo_summary;
     hist_summary := demo_summary |}.

(** Collaborators whose turnover table has lost the quantile column. *)
Definition unlabelled_analytics : Analytics :=
  {| ic_of := demo_ic;
     cum_return_by_quantile_of := demo_cum_return;
     auto_correlation_of := demo_auto_correlation;
     quantile_turnover_of := fun d ps fq =>
       match column_or_error "date" d with
       | inr dates => inr [("date", dates)]
       | inl e => inl e
       end;
     ic_summary := demo_summary;
     hist_summary := demo_summary |}.



(** * Theorems *)

(** ** The monad and its triples *)

Lemma triple_ret {A} (P : World -> Prop) (a : A) Q E :
  (forall w, P w -> Q a w) -> triple P (ret a) Q E.
Proof. intros HQ w Hw. cbn. auto. Qed.

Lemma triple_raise {A} (P : World -> Prop) (e : exn) (Q : A -> World -> Prop) E :
  (forall w, P w -> E e w) -> triple P (raise e) Q E.
Proof. intros HE w Hw. cbn. auto. Qed.

Lemma triple_bind {A B} P (m : M A) (k : A -> M B) Q R E :
  triple P m Q E ->
  (forall a, triple (Q a) (k a) R E) ->
  triple P (bind m k) R E.
Proof.
  intros Hm Hk w Hw. unfold bind.
  specialize (Hm w Hw). destruct (m w) as [[e | a] w']; [exact Hm |].
  apply (Hk a w' Hm).
Qed.

Lemma triple_conseq {A} (P P' : World -> Prop) (m : M A)
    (Q Q' : A -> World -> Prop) (E E' : exn -> World -> Prop) :
  triple P' m Q' E' ->
  (forall w, P w -> P' w) ->
  (forall a w, Q' a w -> Q a w) ->
  (forall e w, E' e w -> E e w) ->
  triple P m Q E.
Proof.
  intros Hm HP HQ HE w Hw. specialize (Hm w (HP w Hw)).
  destruct (m w) as [[e | a] w']; auto.
Qed.

Lemma triple_pure {A} (phi : Prop) (P : World -> Prop) (m : M A) Q E :
  (phi -> triple P m Q E) -> triple (fun w => P w /\ phi) m Q E.
Proof. intros Hm w [Hw Hphi]. apply (Hm Hphi w Hw). Qed.

Lemma triple_getitem {A} (P : World -> Prop) (l : list A) (i : nat)
    (E : exn -> World -> Prop) :
  (forall e w, P w -> E e w) ->
  triple P (getitem l i) (fun x w => P w /\ l !! i = Some x) E.
Proof.
  intros HE w Hw. unfold getitem.
  destruct (l !! i) as [x |] eqn:Hx; cbn; auto.
Qed.

Lemma triple_for_each {A} (I : list A -> World -> Prop) (l : list A)
    (body : A -> M unit) (E : exn -> World -> Prop) :
  (forall done x rest, l = done ++ x :: rest ->
     triple (I done) (body x) (fun _ => I (done ++ [x])) E) ->
  triple (I []) (for_each l body) (fun _ => I l) E.
Proof.
  intros Hbody.
  assert (Hgen : forall todo done, l = done ++ todo ->
            triple (I done) (for_each todo body) (fun _ => I l) E).
  { induction todo as [| x todo IH]; intros done Hl.
    - rewrite app_nil_r in Hl. subst done. apply triple_ret. auto.
    - cbn [for_each]. eapply triple_bind.
      + apply (Hbody done x todo Hl).
      + intros u. apply IH. rewrite <- app_assoc. exact Hl. }
  apply (Hgen l []). reflexivity.
Qed.

(** ** Running the runtime primitives in an extended world *)

Lemma ext_nil w : ext w [] [] = w.
Proof. destruct w. unfold ext. cbn. by rewrite !app_nil_r. Qed.

Lemma load_ext_old w T Fs (r : df_ref) d :
  tables w !! r = Some d -> load r (ext w T Fs) = (inr d, ext w T Fs).
Proof.
  intros Hr. unfold load. cbn [tables ext].
  by rewrite (lookup_app_l_Some _ _ _ _ Hr).
Qed.

Lemma new_table_ext w T Fs d :
  new_table d (ext w T Fs)
  = (inr (length (tables w) + length T), ext w (T ++ [d]) Fs).
Proof.
  unfold new_table, ext, set_tables. cbn.
  by rewrite length_app, app_assoc.
Qed.

Lemma draw_ext w T Fs j F i arts a :
  Fs !! j = Some F ->
  fig_axes F !! i = Some arts ->
  draw (length (figures w) + j, i) a (ext w T Fs)
  = (inr tt, ext w T (<[j := set_axes F (<[i := arts ++ [a]]> (fig_axes F))]> Fs)).
Proof.
  intros Hj Hi. unfold draw. cbn [figures ext fst snd].
  rewrite lookup_app_r by lia.
  replace (length (figures w) + j - length (figures w)) with j by lia.
  rewrite Hj, Hi. unfold set_figures, ext. cbn.
  by rewrite insert_app_r.
Qed.

Lemma tight_layout_ext w T Fs j F :
  Fs !! j = Some F ->
  tight_layout (length (figures w) + j) (ext w T Fs)
  = (inr tt, ext w T (<[j := set_tight F]> Fs)).
Proof.
  intros Hj. unfold tight_layout. cbn [figures ext].
  rewrite lookup_app_r by lia.
  replace (length (figures w) + j - length (figures w)) with j by lia.
  rewrite Hj. unfold set_figures, ext. cbn.
  by rewrite insert_app_r.
Qed.

Lemma plt_subplots_ext w T Fs nrows ncols figsize :
  (0 < nrows)%Z -> (0 < ncols)%Z ->
  plt_subplots nrows ncols figsize (ext w T Fs)
  = (inr (length (figures w) + length Fs,
          grid_refs (length (figures w) + length Fs)
                    (Z.to_nat nrows) (Z.to_nat ncols)),
     ext w T (Fs ++ [new_figure (Z.to_nat nrows) (Z.to_nat ncols) figsize])).
Proof.
  intros Hr Hc. unfold plt_subplots.
  destruct (Z.leb_spec nrows 0); [lia |].
  destruct (Z.leb_spec ncols 0); [lia |].
  cbn [orb]. unfold set_figures, ext. cbn.
  by rewrite length_app, app_assoc.
Qed.

Lemma map_seq_offset {B} (g : nat -> B) a s n :
  map g (seq (a + s) n) = map (fun c => g (a + c)) (seq s n).
Proof.
  revert s. induction n as [| n IH]; intros s; [reflexivity |].
  cbn. f_equal. rewrite <- IH. do 2 f_equal. lia.
Qed.

Lemma concat_grid {B} (g : nat -> B) nrows ncols :
  concat (map (fun r => map (fun c => g (r * ncols + c)) (seq 0 ncols)) (seq 0 nrows))
  = map g (seq 0 (nrows * ncols)).
Proof.
  induction nrows as [| n IH]; [reflexivity |].
  rewrite seq_S, map_app, concat_app, IH. cbn [map concat].
  rewrite app_nil_r.
  replace (S n * ncols) with (n * ncols + ncols) by lia.
  rewrite seq_app, map_app. f_equal.
  transitivity (map g (seq (n * ncols + 0) ncols)).
  - rewrite map_seq_offset. reflexivity.
  - by rewrite Nat.add_0_r.
Qed.

Lemma grid_refs_flatten f nrows ncols :
  flatten (grid_refs f nrows ncols) = map (fun i => (f, i)) (seq 0 (nrows * ncols)).
Proof. apply (concat_grid (fun i => (f, i))). Qed.

Lemma grid_refs_flatten_lookup f nrows ncols i :
  i < nrows * ncols ->
  flatten (grid_refs f nrows ncols) !! i = Some (f, i).
Proof.
  intros Hi. rewrite grid_refs_flatten.
  change (map (λ i0 : nat, (f, i0)) (seq 0 (nrows * ncols)))
    with ((λ i0 : nat, (f, i0)) <$> seq 0 (nrows * ncols)).
  rewrite list_lookup_fmap, lookup_seq_lt by done. reflexivity.
Qed.

Lemma grid_refs_flatten_elem f nrows ncols ax :
  ax ∈ flatten (grid_refs f nrows ncols) -> ax.1 = f.
Proof.
  rewrite grid_refs_flatten. intros Hax.
  apply list_elem_of_In, in_map_iff in Hax. destruct Hax as (i & <- & _). done.
Qed.

(** ** The single-source invariant of the sheet builders *)

Section InvariantRules.
Context `{Analytics}.
Variables (w0 : World) (df_pl : df_ref) (d : DataFrame) (fq : string).
Hypothesis Hdf : tables w0 !! df_pl = Some d.

Abbreviation Inv := (sheet_inv w0 d fq).
Abbreviation InvE := (fun (_ : exn) => sheet_inv w0 d fq).
Abbreviation readable' := (readable w0 df_pl).
Abbreviation fresh' := (fresh_ax w0).

Lemma inv_start : Inv w0.
Proof. exists [], []. rewrite ext_nil. auto. Qed.

Lemma inv_table w : Inv w -> tables w !! df_pl = Some d.
Proof.
  intros (T & Fs & -> & _). cbn. by apply lookup_app_l_Some.
Qed.

Lemma inv_load r :
  readable' r ->
  triple Inv (load r) (fun t w => Inv w /\ Derived d fq t) InvE.
Proof.
  intros Hr w Hw. unfold load.
  destruct (tables w !! r) as [t |] eqn:Ht; [| exact Hw].
  split; [exact Hw |].
  destruct Hr as [-> | Hr].
  - rewrite (inv_table w Hw) in Ht. injection Ht as <-. constructor.
  - destruct Hw as (T & Fs & -> & HT & _). cbn in Ht.
    rewrite lookup_app_r in Ht by lia.
    eapply Forall_lookup_1; eauto.
Qed.

(** The shape shared by the four analytic adapters. *)
Lemma inv_adapter (f : DataFrame -> exn + DataFrame) :
  (forall t, f d = inr t -> Derived d fq t) ->
  triple Inv (t0 <- load df_pl ;; r <- lift (f t0) ;; new_table r)
         (fun r w => Inv w /\ readable' r) InvE.
Proof.
  intros Hf w Hw. pose proof Hw as (T & Fs & -> & HT & HF).
  unfold bind. rewrite (load_ext_old _ _ _ _ _ Hdf). unfold lift.
  destruct (f d) as [e | t] eqn:Hfd; [exact Hw |].
  rewrite new_table_ext. split.
  - exists (T ++ [t]), Fs. split; [done |]. split; [| done].
    apply Forall_app. auto.
  - right. lia.
Qed.

Lemma inv_calc_ic fs rs :
  triple Inv (calc_ic df_pl fs rs) (fun r w => Inv w /\ readable' r) InvE.
Proof. apply (inv_adapter (fun t => ic_of t fs rs)). eauto using Derived. Qed.

Lemma inv_calc_cum_return c p :
  triple Inv (calc_cum_return_by_quantile df_pl c p fq)
         (fun r w => Inv w /\ readable' r) InvE.
Proof.
  apply (inv_adapter (fun t => cum_return_by_quantile_of t c p fq)).
  eauto using Derived.
Qed.

Lemma inv_calc_auto_correlation f ps :
  triple Inv (calc_auto_correlation df_pl f ps)
         (fun r w => Inv w /\ readable' r) InvE.
Proof.
  apply (inv_adapter (fun t => auto_correlation_of t f ps)).
  eauto using Derived.
Qed.

Lemma inv_calc_quantile_turnover ps :
  triple Inv (calc_quantile_turnover df_pl ps fq)
         (fun r w => Inv w /\ readable' r) InvE.
Proof.
  apply (inv_adapter (fun t => quantile_turnover_of t ps fq)).
  eauto using Derived.
Qed.

Lemma inv_columns r :
  readable' r -> triple Inv (columns r) (fun _ w => Inv w /\ True) InvE.
Proof.
  intros Hr. unfold columns. eapply triple_bind; [apply inv_load, Hr |].
  intros t. apply triple_ret. tauto.
Qed.

Lemma inv_get_column r name :
  readable' r -> triple Inv (get_column r name) (fun _ w => Inv w /\ True) InvE.
Proof.
  intros Hr. unfold get_column. eapply triple_bind; [apply inv_load, Hr |].
  intros t. destruct (assoc name t).
  - apply triple_ret. tauto.
  - apply triple_raise. tauto.
Qed.

Lemma inv_getitem {A} (l : list A) i :
  triple Inv (getitem l i) (fun x w => Inv w /\ l !! i = Some x) InvE.
Proof. apply triple_getitem. auto. Qed.

Lemma inv_getitem2 {A} (a : list (list A)) r c :
  triple Inv (getitem2 a r c)
         (fun x w => Inv w /\ exists row, a !! r = Some row /\ row !! c = Some x) InvE.
Proof.
  unfold getitem2. eapply triple_bind; [apply inv_getitem |].
  intros row. apply triple_pure. intros Hrow.
  eapply triple_conseq; [apply inv_getitem | auto | | auto].
  cbn. intros x w [Hw Hx]. eauto.
Qed.

Lemma sourced_insert (axs : list Axes) i arts a :
  Forall (sourced d fq) (concat axs) ->
  axs !! i = Some arts ->
  sourced d fq a ->
  Forall (sourced d fq) (concat (<[i := arts ++ [a]]> axs)).
Proof.
  rewrite !Forall_concat. intros Hall Hi Ha.
  apply Forall_insert; [done |].
  apply Forall_app. split; [| by constructor].
  eapply Forall_lookup_1; eauto.
Qed.

Lemma inv_draw ax a :
  fresh' ax -> sourced d fq a ->
  triple Inv (draw ax a) (fun _ w => Inv w /\ True) InvE.
Proof.
  intros Hax Ha w Hw. pose proof Hw as (T & Fs & -> & HT & HF).
  destruct ax as [f i]. unfold fresh_ax in Hax. cbn in Hax.
  unfold draw. cbn [figures ext fst snd].
  rewrite lookup_app_r by lia.
  destruct (Fs !! (f - length (figures w0))) as [F |] eqn:HF0; [| exact Hw].
  destruct (fig_axes F !! i) as [arts |] eqn:Hi; [| exact Hw].
  split; [| done].
  exists T, (<[f - length (figures w0) :=
                set_axes F (<[i := arts ++ [a]]> (fig_axes F))]> Fs).
  split.
  - unfold set_figures, ext. cbn. f_equal.
    replace f with (length (figures w0) + (f - length (figures w0))) at 1 by lia.
    apply insert_app_r.
  - split; [done |].
    apply Forall_insert; [done |].
    unfold fig_artists. cbn.
    apply sourced_insert; auto.
    apply (Forall_lookup_1 _ _ _ _ HF HF0).
Qed.

Lemma inv_tight_layout fig :
  length (figures w0) <= fig ->
  triple Inv (tight_layout fig) (fun _ w => Inv w /\ True) InvE.
Proof.
  intros Hfig w Hw. pose proof Hw as (T & Fs & -> & HT & HF).
  replace fig with (length (figures w0) + (fig - length (figures w0))) by lia.
  destruct (Fs !! (fig - length (figures w0))) as [F |] eqn:HF0.
  - rewrite (tight_layout_ext _ _ _ _ _ HF0). split; [| done].
    eexists T, _. split; [reflexivity |]. split; [done |].
    apply Forall_insert; [done |].
    apply (Forall_lookup_1 _ _ _ _ HF HF0).
  - unfold tight_layout. cbn [figures ext].
    rewrite lookup_app_r by lia.
    replace (length (figures w0) + (fig - length (figures w0)) - length (figures w0))
      with (fig - length (figures w0)) by lia.
    rewrite HF0. exact Hw.
Qed.

Lemma inv_plt_subplots nrows ncols figsize :
  triple Inv (plt_subplots nrows ncols figsize)
    (fun fa w => Inv w /\
       (length (figures w0) <= fa.1 /\
        forall row ax, row ∈ fa.2 -> ax ∈ row -> fresh' ax))
    InvE.
Proof.
  intros w Hw. pose proof Hw as (T & Fs & -> & HT & HF).
  destruct (Z.ltb_spec 0 nrows) as [Hr |];
    [destruct (Z.ltb_spec 0 ncols) as [Hc |] |].
  - rewrite plt_subplots_ext by done. split.
    + eexists T, _. split; [reflexivity |]. split; [done |].
      apply Forall_app. split; [done |]. constructor; [| done].
      unfold fig_artists, new_figure. cbn.
      apply Forall_concat, Forall_replicate. constructor.
    + cbn [fst snd]. split; [lia |]. intros row ax Hrow Hin.
      assert (Hax : ax ∈ flatten (grid_refs (length (figures w0) + length Fs)
                                            (Z.to_nat nrows) (Z.to_nat ncols))).
      { unfold flatten. apply list_elem_of_In, in_concat.
        exists row. split; by apply list_elem_of_In. }
      apply grid_refs_flatten_elem in Hax. unfold fresh_ax. lia.
  - unfold plt_subplots.
    destruct (Z.leb_spec ncols 0); [| lia].
    rewrite orb_true_r. exact Hw.
  - unfold plt_subplots.
    destruct (Z.leb_spec nrows 0); [| lia].
    cbn [orb]. exact Hw.
Qed.

Lemma inv_plot_ic_ts r col axvlines ax :
  readable' r -> fresh' ax ->
  triple Inv (plot_ic_ts r col axvlines ax) (fun _ w => Inv w /\ True) InvE.
Proof.
  intros Hr Hax. unfold plot_ic_ts.
  eapply triple_bind; [apply inv_load, Hr |].
  intros t. apply triple_pure. intros Ht.
  eapply triple_bind; [apply inv_draw; [done | by split] |].
  intros u. apply triple_ret. tauto.
Qed.

Lemma inv_plot_hist r col ax :
  readable' r -> fresh' ax ->
  triple Inv (plot_hist r col ax) (fun _ w => Inv w /\ True) InvE.
Proof.
  intros Hr Hax. unfold plot_hist.
  eapply triple_bind; [apply inv_load, Hr |].
  intros t. apply triple_pure. intros Ht.
  eapply triple_bind; [apply inv_draw; [done | by split] |].
  intros u. apply triple_ret. tauto.
Qed.

Lemma inv_plot_ic_heatmap_monthly r col ax :
  readable' r -> fresh' ax ->
  triple Inv (plot_ic_heatmap_monthly r col ax) (fun _ w => Inv w /\ True) InvE.
Proof.
  intros Hr Hax. unfold plot_ic_heatmap_monthly.
  eapply triple_bind; [apply inv_load, Hr |].
  intros t. apply triple_pure. intros Ht.
  apply inv_draw; [done | by split].
Qed.

Lemma inv_plot_quantile_portfolio r c p axvlines ax :
  readable' r -> fresh' ax ->
  triple Inv (plot_quantile_portfolio r c p axvlines ax)
         (fun _ w => Inv w /\ True) InvE.
Proof.
  intros Hr Hax. unfold plot_quantile_portfolio.
  eapply triple_bind; [apply inv_load, Hr |].
  intros t. apply triple_pure. intros Ht.
  apply inv_draw; [done | by split].
Qed.

Lemma inv_plot_factor_auto_correlation r axvlines ax :
  readable' r -> fresh' ax ->
  triple Inv (plot_factor_auto_correlation r axvlines ax)
         (fun _ w => Inv w /\ True) InvE.
Proof.
  intros Hr Hax. unfold plot_factor_auto_correlation.
  eapply triple_bind; [apply inv_load, Hr |].
  intros t. apply triple_pure. intros Ht.
  apply inv_draw; [done | by split].
Qed.

Lemma inv_plot_turnover_quantile r q ps axvlines ax :
  readable' r -> fresh' ax ->
  triple Inv (plot_turnover_quantile r q fq ps axvlines ax)
         (fun _ w => Inv w /\ True) InvE.
Proof.
  intros Hr Hax. unfold plot_turnover_quantile.
  eapply triple_bind; [apply inv_load, Hr |].
  intros t. apply triple_pure. intros Ht.
  apply inv_draw; [done |]. split; [done |].
  cbn. by intros q' [= <-].
Qed.

Lemma fresh_of_flatten (axes : list (list ax_ref)) i ax :
  (forall row ax, row ∈ axes -> ax ∈ row -> fresh' ax) ->
  flatten axes !! i = Some ax -> fresh' ax.
Proof.
  intros Hall Hi. apply list_elem_of_lookup_2, list_elem_of_In, in_concat in Hi.
  destruct Hi as (row & Hrow & Hax).
  apply (Hall row); by apply list_elem_of_In.
Qed.

Lemma fresh_of_grid (axes : list (list ax_ref)) r c ax :
  (forall row ax, row ∈ axes -> ax ∈ row -> fresh' ax) ->
  (exists row, axes !! r = Some row /\ row !! c = Some ax) -> fresh' ax.
Proof.
  intros Hall (row & Hrow & Hax).
  apply (Hall row); eapply list_elem_of_lookup_2; eauto.
Qed.

Ltac inv_step lem :=
  eapply triple_bind; [apply lem | intros ?; apply triple_pure; intros ?].

Ltac inv_plot lem :=
  eapply triple_bind;
  [apply lem; [assumption || (by left) | eauto using fresh_of_flatten, fresh_of_grid]
  | intros ?; apply triple_pure; intros _].

Lemma inv_create_2x2_sheet factor forward_return fwd_ret_1 period figsize axvlines :
  triple Inv
    (create_2x2_sheet df_pl factor forward_return fwd_ret_1 period fq figsize axvlines)
    (fun _ => Inv) InvE.
Proof.
  unfold create_2x2_sheet.
  inv_step inv_plt_subplots.
  match goal with Hf : _ /\ _ |- _ => destruct Hf as [Hfig Hfresh] end.
  inv_step inv_calc_ic.
  inv_step inv_columns; [assumption |].
  inv_step (@inv_getitem string).
  inv_step (@inv_getitem ax_ref). inv_plot inv_plot_ic_ts.
  inv_step (@inv_getitem ax_ref). inv_plot inv_plot_ic_heatmap_monthly.
  inv_step (@inv_getitem ax_ref). inv_plot inv_plot_hist.
  inv_step inv_calc_cum_return.
  inv_step (@inv_getitem ax_ref). inv_plot inv_plot_quantile_portfolio.
  inv_step inv_tight_layout; [assumption |].
  apply triple_ret. auto.
Qed.

Lemma inv_create_1x3_sheet factor forward_return fwd_ret_1 period figsize axvlines :
  triple Inv
    (create_1x3_sheet df_pl factor forward_return fwd_ret_1 period fq figsize axvlines)
    (fun _ => Inv) InvE.
Proof.
  unfold create_1x3_sheet.
  inv_step inv_plt_subplots.
  match goal with Hf : _ /\ _ |- _ => destruct Hf as [Hfig Hfresh] end.
  inv_step inv_calc_ic.
  inv_step inv_columns; [assumption |].
  inv_step (@inv_getitem string).
  inv_step (@inv_getitem ax_ref). inv_plot inv_plot_ic_ts.
  inv_step inv_calc_cum_return.
  inv_step (@inv_getitem ax_ref). inv_plot inv_plot_quantile_portfolio.
  inv_step (@inv_getitem ax_ref). inv_plot inv_plot_hist.
  inv_step inv_tight_layout; [assumption |].
  apply triple_ret. auto.
Qed.

Lemma inv_create_2x3_sheet factor forward_return fwd_ret_1 periods figsize axvlines :
  triple Inv
    (create_2x3_sheet df_pl factor forward_return fwd_ret_1 periods fq figsize axvlines)
    (fun _ => Inv) InvE.
Proof.
  unfold create_2x3_sheet.
  inv_step inv_plt_subplots.
  match goal with Hf : _ /\ _ |- _ => destruct Hf as [Hfig Hfresh] end.
  inv_step inv_calc_ic.
  inv_step inv_columns; [assumption |].
  inv_step (@inv_getitem string).
  inv_step (@inv_getitem ax_ref). inv_plot inv_plot_ic_ts.
  inv_step (@inv_getitem ax_ref). inv_plot inv_plot_hist.
  inv_step (@inv_getitem ax_ref). inv_plot inv_plot_ic_heatmap_monthly.
  eapply triple_bind.
  { apply (triple_for_each (fun _ => Inv)). intros done ip rest _.
    inv_step inv_calc_cum_return.
    inv_step (@inv_getitem ax_ref).
    eapply triple_conseq;
      [apply inv_plot_quantile_portfolio;
       [assumption | eauto using fresh_of_flatten]
      | auto | cbn; tauto | auto]. }
  intros u.
  inv_step inv_tight_layout; [assumption |].
  apply triple_ret. auto.
Qed.

Lemma inv_create_3x2_sheet factor forward_return fwd_ret_1 period periods
    figsize axvlines :
  triple Inv
    (create_3x2_sheet df_pl factor forward_return fwd_ret_1 period fq periods
                      figsize axvlines)
    (fun _ => Inv) InvE.
Proof.
  unfold create_3x2_sheet.
  inv_step inv_plt_subplots.
  match goal with Hf : _ /\ _ |- _ => destruct Hf as [Hfig Hfresh] end.
  inv_step inv_calc_ic.
  inv_step inv_columns; [assumption |].
  inv_step (@inv_getitem string).
  inv_step (@inv_getitem2 ax_ref). inv_plot inv_plot_ic_ts.
  inv_step (@inv_getitem2 ax_ref). inv_plot inv_plot_hist.
  inv_step (@inv_getitem2 ax_ref). inv_plot inv_plot_ic_heatmap_monthly.
  inv_step inv_calc_cum_return.
  inv_step (@inv_getitem2 ax_ref). inv_plot inv_plot_quantile_portfolio.
  inv_step inv_calc_auto_correlation.
  inv_step inv_calc_quantile_turnover.
  inv_step (@inv_getitem2 ax_ref). inv_plot inv_plot_factor_auto_correlation.
  inv_step inv_get_column; [assumption |].
  inv_step inv_get_column; [assumption |].
  inv_step (@inv_getitem2 ax_ref). inv_plot inv_plot_turnover_quantile.
  inv_step inv_tight_layout; [assumption |].
  apply triple_ret. auto.
Qed.

End InvariantRules.

(** C10. Each of the four sheet builders leaves the caller's table as it
    found it, whether the build returns or raises: the table behind
    [df_pl] is still [d], every object that existed before the call is
    unchanged, and every table the build allocated and every artist on
    every figure it allocated is derived from that one snapshot [d], with
    [factor_quantile] as the quantile column wherever one is taken. *)
Theorem sheet_builds_read_only_single_source `{Analytics}
    (w0 : World) (df_pl : df_ref) (d : DataFrame)
    (factor forward_return fwd_ret_1 factor_quantile : string)
    (period : Z) (periods : list Z) (figsize : Z * Z) (axvlines : list string) :
  tables w0 !! df_pl = Some d ->
  read_only_single_source w0 df_pl d factor_quantile
    (create_2x2_sheet df_pl factor forward_return fwd_ret_1 period
                      factor_quantile figsize axvlines w0) /\
  read_only_single_source w0 df_pl d factor_quantile
    (create_1x3_sheet df_pl factor forward_return fwd_ret_1 period
                      factor_quantile figsize axvlines w0) /\
  read_only_single_source w0 df_pl d factor_quantile
    (create_2x3_sheet df_pl factor forward_return fwd_ret_1 periods
                      factor_quantile figsize axvlines w0) /\
  read_only_single_source w0 df_pl d factor_quantile
    (create_3x2_sheet df_pl factor forward_return fwd_ret_1 period
                      factor_quantile periods figsize axvlines w0).
Proof.
  intros Hdf.
  assert (Hgen : forall m : M pyobj,
            triple (sheet_inv w0 d factor_quantile) m
                   (fun _ => sheet_inv w0 d factor_quantile)
                   (fun _ => sheet_inv w0 d factor_quantile) ->
            read_only_single_source w0 df_pl d factor_quantile (m w0)).
  { intros m Hm. specialize (Hm w0 (inv_start w0 d factor_quantile)).
    unfold read_only_single_source.
    destruct (m w0) as [[e | v] w']; cbn [snd];
      (split; [by apply (inv_table w0 df_pl d factor_quantile Hdf) | done]). }
  split; [| split; [| split]]; apply Hgen.
  - by apply inv_create_2x2_sheet.
  - by apply inv_create_1x3_sheet.
  - by apply inv_create_2x3_sheet.
  - by apply inv_create_3x2_sheet.
Qed.

(** ** Exact runs of the collaborators *)

Lemma bind_run {A B} (m : M A) (k : A -> M B) w a w' :
  m w = (inr a, w') -> bind m k w = k a w'.
Proof. intros Hm. unfold bind. by rewrite Hm. Qed.

Lemma bind_err {A B} (m : M A) (k : A -> M B) w e w' :
  m w = (inl e, w') -> bind m k w = (inl e, w').
Proof. intros Hm. unfold bind. by rewrite Hm. Qed.

Lemma getitem_run {A} (l : list A) i x w :
  l !! i = Some x -> getitem l i w = (inr x, w).
Proof. intros Hi. unfold getitem. by rewrite Hi. Qed.

Lemma getitem2_run {A} (a : list (list A)) r c row x w :
  a !! r = Some row -> row !! c = Some x -> getitem2 a r c w = (inr x, w).
Proof.
  intros Hr Hc. unfold getitem2.
  rewrite (bind_run _ _ _ _ _ (getitem_run _ _ _ _ Hr)).
  by apply getitem_run.
Qed.

Lemma load_run w (r : df_ref) t :
  tables w !! r = Some t -> load r w = (inr t, w).
Proof. intros Hr. unfold load. by rewrite Hr. Qed.

Lemma ext_lookup_old w T Fs (r : df_ref) t :
  tables w !! r = Some t -> tables (ext w T Fs) !! r = Some t.
Proof. intros Hr. cbn. by apply lookup_app_l_Some. Qed.

Lemma ext_lookup_new w T Fs i t :
  T !! i = Some t -> tables (ext w T Fs) !! (length (tables w) + i) = Some t.
Proof.
  intros Hi. cbn. rewrite lookup_app_r by lia.
  by replace (length (tables w) + i - length (tables w)) with i by lia.
Qed.

Lemma columns_run w (r : df_ref) t :
  tables w !! r = Some t -> columns r w = (inr (map fst t), w).
Proof.
  intros Hr. unfold columns. by rewrite (bind_run _ _ _ _ _ (load_run _ _ _ Hr)).
Qed.

Lemma get_column_run w (r : df_ref) t name s :
  tables w !! r = Some t -> assoc name t = Some s ->
  get_column r name w = (inr s, w).
Proof.
  intros Hr Hs. unfold get_column.
  rewrite (bind_run _ _ _ _ _ (load_run _ _ _ Hr)). by rewrite Hs.
Qed.

Section Runs.
Context `{Analytics}.

Lemma adapter_run (f : DataFrame -> exn + DataFrame) w T Fs (df : df_ref) d t :
  tables w !! df = Some d -> f d = inr t ->
  (t0 <- load df ;; r <- lift (f t0) ;; new_table r) (ext w T Fs)
  = (inr (length (tables w) + length T), ext w (T ++ [t]) Fs).
Proof.
  intros Hdf Hf.
  rewrite (bind_run _ _ _ _ _ (load_ext_old _ _ _ _ _ Hdf)).
  unfold bind at 1, lift. rewrite Hf. apply new_table_ext.
Qed.

Lemma adapter_err (f : DataFrame -> exn + DataFrame) w (df : df_ref) d e :
  tables w !! df = Some d -> f d = inl e ->
  (t0 <- load df ;; r <- lift (f t0) ;; new_table r) w = (inl e, w).
Proof.
  intros Hdf Hf.
  rewrite (bind_run _ _ _ _ _ (load_run _ _ _ Hdf)).
  unfold bind at 1, lift. by rewrite Hf.
Qed.

(** The shape shared by the six renderers. *)
Lemma renderer_run {A} (mk : DataFrame -> Artist) (summary : DataFrame -> A)
    w T Fs (r : df_ref) t j F i arts :
  tables (ext w T Fs) !! r = Some t ->
  Fs !! j = Some F ->
  fig_axes F !! i = Some arts ->
  (d <- load r ;; draw (length (figures w) + j, i) (mk d) ;; ret (summary d))
    (ext w T Fs)
  = (inr (summary t),
     ext w T (<[j := set_axes F (<[i := arts ++ [mk t]]> (fig_axes F))]> Fs)).
Proof.
  intros Hr Hj Hi.
  rewrite (bind_run _ _ _ _ _ (load_run _ _ _ Hr)).
  by rewrite (bind_run _ _ _ _ _ (draw_ext _ _ _ _ _ _ _ _ Hj Hi)).
Qed.

Lemma renderer_unit_run (mk : DataFrame -> Artist)
    w T Fs (r : df_ref) t j F i arts :
  tables (ext w T Fs) !! r = Some t ->
  Fs !! j = Some F ->
  fig_axes F !! i = Some arts ->
  (d <- load r ;; draw (length (figures w) + j, i) (mk d)) (ext w T Fs)
  = (inr tt,
     ext w T (<[j := set_axes F (<[i := arts ++ [mk t]]> (fig_axes F))]> Fs)).
Proof.
  intros Hr Hj Hi.
  rewrite (bind_run _ _ _ _ _ (load_run _ _ _ Hr)).
  by apply draw_ext.
Qed.

End Runs.

(** ** The 1x3 sheet *)

Ltac run_with lem := erewrite bind_run; [| lem].
Ltac fail_with lem := erewrite bind_err; [| lem].

Lemma load_err w (r : df_ref) :
  tables w !! r = None -> load r w = (inl ReferenceError, w).
Proof. intros Hr. unfold load. by rewrite Hr. Qed.

Lemma getitem_err {A} (l : list A) i w :
  l !! i = None -> getitem l i w = (inl IndexError, w).
Proof. intros Hi. unfold getitem. by rewrite Hi. Qed.

Section Sheet1x3.
Context `{Analytics}.

Lemma create_1x3_sheet_run w (df_pl : df_ref) d factor forward_return fwd_ret_1
    period fq figsize axvlines t_ic col t_cum :
  tables w !! df_pl = Some d ->
  ic_of d [factor] [forward_return] = inr t_ic ->
  map fst t_ic !! 1 = Some col ->
  cum_return_by_quantile_of d fwd_ret_1 period fq = inr t_cum ->
  create_1x3_sheet df_pl factor forward_return fwd_ret_1 period fq figsize axvlines w
  = (inr (PyTuple4 (length (figures w)) (ic_summary t_ic col)
                   (hist_summary d factor) (length (tables w) + 1)),
     ext w [t_ic; t_cum]
         [mkFigure 1 3 figsize
            [[IcTs t_ic col axvlines];
             [QuantilePortfolio t_cum fwd_ret_1 period axvlines];
             [Hist d factor]] true]).
Proof.
  intros Hdf Hic Hcol Hcum. unfold create_1x3_sheet.
  rewrite <- (ext_nil w) at 1.
  run_with ltac:(by apply plt_subplots_ext).
  cbn [fst snd length app].
  run_with ltac:(eapply (adapter_run (fun t => ic_of t [factor] [forward_return]));
                 eassumption).
  run_with ltac:(apply columns_run, (ext_lookup_new _ _ _ 0); reflexivity).
  run_with ltac:(by apply getitem_run).
  run_with ltac:(by apply getitem_run).
  run_with ltac:(eapply (renderer_run (fun t => IcTs t col axvlines)
                                      (fun t => ic_summary t col));
                 [apply (ext_lookup_new _ _ _ 0) | |]; reflexivity).
  run_with ltac:(eapply (adapter_run
                           (fun t => cum_return_by_quantile_of t fwd_ret_1 period fq));
                 eassumption).
  run_with ltac:(by apply getitem_run).
  run_with ltac:(eapply (renderer_unit_run
                           (fun t => QuantilePortfolio t fwd_ret_1 period axvlines));
                 [apply (ext_lookup_new _ _ _ 1) | |]; reflexivity).
  run_with ltac:(by apply getitem_run).
  run_with ltac:(eapply (renderer_run (fun t => Hist t factor)
                                      (fun t => hist_summary t factor));
                 [apply ext_lookup_old; eassumption | |]; reflexivity).
  run_with ltac:(eapply tight_layout_ext; reflexivity).
  cbn. rewrite Nat.add_0_r. reflexivity.
Qed.

Lemma create_1x3_sheet_series w (df_pl : df_ref) factor forward_return fwd_ret_1
    period fq figsize axvlines :
  returned_series
    (create_1x3_sheet df_pl factor forward_return fwd_ret_1 period fq figsize
                      axvlines w)
  = series_of_1x3 w df_pl factor forward_return fwd_ret_1 period fq.
Proof.
  unfold series_of_1x3.
  destruct (tables w !! df_pl) as [d |] eqn:Hdf.
  2: { unfold create_1x3_sheet. rewrite <- (ext_nil w) at 1.
       run_with ltac:(by apply plt_subplots_ext).
       fail_with ltac:(unfold calc_ic; eapply bind_err, load_err; cbn;
                       by rewrite app_nil_r).
       reflexivity. }
  destruct (ic_of d [factor] [forward_return]) as [e | t_ic] eqn:Hic.
  { unfold create_1x3_sheet. rewrite <- (ext_nil w) at 1.
    run_with ltac:(by apply plt_subplots_ext).
    fail_with ltac:(eapply (adapter_err (fun t => ic_of t [factor] [forward_return]));
                    [apply ext_lookup_old |]; eassumption).
    reflexivity. }
  destruct (map fst t_ic !! 1) as [col |] eqn:Hcol.
  2: { unfold create_1x3_sheet. rewrite <- (ext_nil w) at 1.
       run_with ltac:(by apply plt_subplots_ext).
       cbn [fst snd length app].
       run_with ltac:(eapply (adapter_run (fun t => ic_of t [factor] [forward_return]));
                      eassumption).
       run_with ltac:(apply columns_run, (ext_lookup_new _ _ _ 0); reflexivity).
       fail_with ltac:(by apply getitem_err).
       reflexivity. }
  destruct (cum_return_by_quantile_of d fwd_ret_1 period fq) as [e | t_cum] eqn:Hcum.
  { unfold create_1x3_sheet. rewrite <- (ext_nil w) at 1.
    run_with ltac:(by apply plt_subplots_ext).
    cbn [fst snd length app].
    run_with ltac:(eapply (adapter_run (fun t => ic_of t [factor] [forward_return]));
                   eassumption).
    run_with ltac:(apply columns_run, (ext_lookup_new _ _ _ 0); reflexivity).
    run_with ltac:(by apply getitem_run).
    run_with ltac:(by apply getitem_run).
    run_with ltac:(eapply (renderer_run (fun t => IcTs t col axvlines)
                                        (fun t => ic_summary t col));
                   [apply (ext_lookup_new _ _ _ 0) | |]; reflexivity).
    fail_with ltac:(eapply (adapter_err
                              (fun t => cum_return_by_quantile_of t fwd_ret_1 period fq));
                    [apply ext_lookup_old |]; eassumption).
    reflexivity. }
  rewrite (create_1x3_sheet_run _ _ _ _ _ _ _ _ _ _ _ _ _ Hdf Hic Hcol Hcum).
  cbn [returned_series]. do 3 f_equal.
  apply (ext_lookup_new _ _ _ 1). reflexivity.
Qed.

End Sheet1x3.

(** C8. Two calls of the 1x3 builder that differ only in [axvlines]
    hand back the same IC summary, the same histogram summary and the
    same cumulative-return curve, or raise the same exception. *)
Theorem axvlines_do_not_change_returned_series `{Analytics}
    (w : World) (df_pl : df_ref) (factor forward_return fwd_ret_1 : string)
    (period : Z) (factor_quantile : string) (figsize : Z * Z)
    (axvlines1 axvlines2 : list string) :
  returned_series
    (create_1x3_sheet df_pl factor forward_return fwd_ret_1 period
                      factor_quantile figsize axvlines1 w)
  = returned_series
      (create_1x3_sheet df_pl factor forward_return fwd_ret_1 period
                        factor_quantile figsize axvlines2 w).
Proof. by rewrite !create_1x3_sheet_series. Qed.

(** ** The 2x3 sheet *)

Lemma ceil_half (n : nat) :
  ceil (true_div (Z.of_nat n) 2) = Z.of_nat ((n + 1) / 2).
Proof.
  rewrite Nat2Z.inj_div, Nat2Z.inj_add.
  change (Z.of_nat 2) with 2%Z. change (Z.of_nat 1) with 1%Z.
  generalize (Z.of_nat n). intros z.
  unfold ceil, true_div, Qceiling, Qfloor, Qdiv, Qmult, Qinv, Qopp, inject_Z.
  cbn [Qnum Qden]. change (Z.pos (1 * 2)) with 2%Z.
  pose proof (Z.div_mod (- (z * 1)) 2 ltac:(lia)).
  pose proof (Z.mod_pos_bound (- (z * 1)) 2 ltac:(lia)).
  pose proof (Z.div_mod (z + 1) 2 ltac:(lia)).
  pose proof (Z.mod_pos_bound (z + 1) 2 ltac:(lia)).
  lia.
Qed.

Section Sheet2x3.
Context `{Analytics}.

Lemma curve_loop_run (w : World) (d : DataFrame) (fwd_ret_1 fq : string)
    (axvlines : list string) (nr nc : nat) (figsize : Z * Z) (n : nat)
    (body : nat * Z -> M unit) :
  (forall i p t T pre m,
      cum_return_by_quantile_of d fwd_ret_1 p fq = inr t ->
      length pre = 3 + i ->
      length pre + S m = n ->
      body (i, p)
        (ext w T [mkFigure nr nc figsize (pre ++ replicate (S m) blank_axes) false])
      = (inr tt,
         ext w (T ++ [t])
             [mkFigure nr nc figsize
                ((pre ++ [[QuantilePortfolio t fwd_ret_1 p axvlines]])
                   ++ replicate m blank_axes) false])) ->
  forall periods curves i T pre m,
    Forall2 (fun p t => cum_return_by_quantile_of d fwd_ret_1 p fq = inr t)
            periods curves ->
    length pre = 3 + i ->
    length pre + m = n ->
    length periods <= m ->
    for_each (enumerate_from i periods) body
      (ext w T [mkFigure nr nc figsize (pre ++ replicate m blank_axes) false])
    = (inr tt,
       ext w (T ++ curves)
           [mkFigure nr nc figsize
              (pre ++ curve_panels fwd_ret_1 axvlines periods curves
                   ++ replicate (m - length periods) blank_axes) false]).
Proof.
  intros Hbody periods curves i T pre m Hall. revert i T pre m.
  induction Hall as [| p t periods curves Hp Hall IH]; intros i T pre m Hpre Hn Hm.
  - cbn. by rewrite app_nil_r, Nat.sub_0_r.
  - cbn [enumerate_from for_each length] in *.
    destruct m as [| m]; [lia |].
    rewrite (bind_run _ _ _ _ _ (Hbody i p t T pre m Hp Hpre Hn)).
    rewrite IH; [| rewrite length_app; cbn; lia | rewrite length_app; cbn; lia | lia].
    cbn [curve_panels zip_with Nat.sub].
    by rewrite <- !app_assoc.
Qed.


Lemma create_2x3_sheet_run w (df_pl : df_ref) d factor forward_return fwd_ret_1
    periods fq figsize axvlines t_ic col curves :
  tables w !! df_pl = Some d ->
  ic_of d [factor] [forward_return] = inr t_ic ->
  map fst t_ic !! 1 = Some col ->
  Forall2 (fun p t => cum_return_by_quantile_of d fwd_ret_1 p fq = inr t)
          periods curves ->
  let ncols := (length periods + 3 + 1) / 2 in
  create_2x3_sheet df_pl factor forward_return fwd_ret_1 periods fq figsize axvlines w
  = (inr PyNone,
     ext w (t_ic :: curves)
         [mkFigure 2 ncols figsize
            ([[IcTs t_ic col axvlines]; [Hist t_ic col]; [IcHeatmapMonthly t_ic col]]
               ++ curve_panels fwd_ret_1 axvlines periods curves
               ++ replicate (2 * ncols - 3 - length periods) blank_axes) true]).
Proof.
  intros Hdf Hic Hcol Hall ncols. unfold create_2x3_sheet.
  rewrite ceil_half. fold ncols.
  assert (Hn : length periods + 3 <= 2 * ncols).
  { unfold ncols. pose proof (Nat.div_mod_eq (length periods + 3 + 1) 2).
    pose proof (Nat.mod_upper_bound (length periods + 3 + 1) 2). lia. }
  rewrite <- (ext_nil w) at 1.
  run_with ltac:(apply plt_subplots_ext; lia).
  rewrite Nat2Z.id. change (Z.to_nat 2) with 2.
  cbn [fst snd length app].
  run_with ltac:(eapply (adapter_run (fun t => ic_of t [factor] [forward_return]));
                 eassumption).
  run_with ltac:(apply columns_run, (ext_lookup_new _ _ _ 0); reflexivity).
  run_with ltac:(by apply getitem_run).
  unfold new_figure.
  destruct (2 * ncols) as [| [| [| m]]] eqn:Hm; [lia | lia | lia |].
  cbn [replicate].
  run_with ltac:(apply getitem_run, grid_refs_flatten_lookup; lia).
  run_with ltac:(eapply (renderer_run (fun t => IcTs t col axvlines)
                                      (fun t => ic_summary t col));
                 [apply (ext_lookup_new _ _ _ 0) | |]; reflexivity).
  run_with ltac:(apply getitem_run, grid_refs_flatten_lookup; lia).
  run_with ltac:(eapply (renderer_run (fun t => Hist t col)
                                      (fun t => hist_summary t col));
                 [apply (ext_lookup_new _ _ _ 0) | |]; reflexivity).
  run_with ltac:(apply getitem_run, grid_refs_flatten_lookup; lia).
  run_with ltac:(eapply (renderer_unit_run (fun t => IcHeatmapMonthly t col));
                 [apply (ext_lookup_new _ _ _ 0) | |]; reflexivity).
  unfold set_axes, blank_axes.
  cbn [fig_axes fig_nrows fig_ncols fig_size fig_tight app].
  unfold enumerate.
  run_with ltac:(
    eapply (curve_loop_run w d fwd_ret_1 fq axvlines 2 ncols figsize (3 + m))
      with (i := 0) (T := [t_ic]) (m := m)
           (pre := [[IcTs t_ic col axvlines]; [Hist t_ic col];
                    [IcHeatmapMonthly t_ic col]]);
    [| eassumption | reflexivity | reflexivity | lia]).
  2: { intros i p t T pre m' Hp Hpre Hlen. cbn [fst snd].
       run_with ltac:(eapply (adapter_run
                                (fun t => cum_return_by_quantile_of t fwd_ret_1 p fq));
                      eassumption).
       run_with ltac:(apply getitem_run, grid_refs_flatten_lookup; lia).
       etransitivity;
         [eapply (renderer_unit_run
                    (fun t => QuantilePortfolio t fwd_ret_1 p axvlines));
          [ apply ext_lookup_new, list_lookup_middle; reflexivity
          | reflexivity
          | cbn [fig_axes]; rewrite lookup_app_r by lia;
            rewrite Hpre, Nat.sub_diag; reflexivity] |].
       unfold set_axes, blank_axes.
       cbn [fig_axes fig_nrows fig_ncols fig_size fig_tight app list_insert insert].
       rewrite insert_app_r_alt by lia.
       rewrite Hpre, Nat.sub_diag. cbn [insert list_insert].
       by rewrite <- app_assoc. }
  run_with ltac:(eapply tight_layout_ext; reflexivity).
  cbn. rewrite Nat.sub_0_r. reflexivity.
Qed.

End Sheet2x3.

Lemma drawn_panels_app nr nc fs (panels : list Axes) k tight :
  Forall (fun ax => length ax = 1) panels ->
  drawn_panels (mkFigure nr nc fs (panels ++ replicate k blank_axes) tight)
  = length panels.
Proof.
  intros Hp. unfold drawn_panels. cbn [fig_axes].
  rewrite List.filter_app, length_app.
  replace (List.filter (fun ax : Axes => negb (length ax =? 0)) (replicate k blank_axes))
    with (@nil Axes).
  2: { induction k; cbn; auto. }
  cbn [length]. rewrite Nat.add_0_r.
  induction Hp as [| ax panels Hax Hp IH]; [reflexivity |].
  cbn. rewrite Hax. cbn. by rewrite IH.
Qed.

Lemma curve_panels_length c a periods curves :
  length periods = length curves ->
  length (curve_panels c a periods curves) = length periods.
Proof. intros Hlen. unfold curve_panels. rewrite length_zip_with. lia. Qed.

Lemma curve_panels_single c a periods curves :
  Forall (fun ax => length ax = 1) (curve_panels c a periods curves).
Proof.
  unfold curve_panels. revert curves.
  induction periods as [| p ps IH]; intros [| t ts]; cbn; auto.
Qed.

(** C1. Whatever the holding periods, the 2x3 builder allocates a grid
    of 2 rows and [ceil((3 + len(periods)) / 2)] columns and draws
    [3 + len(periods)] panels, one per slot from the first slot on; when
    that count is odd exactly one slot stays blank, the last one, and the
    build returns normally. *)
Theorem sheet_2x3_grid `{Analytics} (w : World) (df_pl : df_ref) (d : DataFrame)
    (factor forward_return fwd_ret_1 : string) (periods : list Z)
    (factor_quantile : string) (figsize : Z * Z) (axvlines : list string)
    (t_ic : DataFrame) (col : string) (curves : list DataFrame) :
  tables w !! df_pl = Some d ->
  ic_of d [factor] [forward_return] = inr t_ic ->
  map fst t_ic !! 1 = Some col ->
  Forall2 (fun p t => cum_return_by_quantile_of d fwd_ret_1 p factor_quantile = inr t)
          periods curves ->
  let count := 3 + length periods in
  exists w' F panels,
    create_2x3_sheet df_pl factor forward_return fwd_ret_1 periods
                     factor_quantile figsize axvlines w = (inr PyNone, w') /\
    figures w' = figures w ++ [F] /\
    fig_nrows F = 2 /\
    Z.of_nat (fig_ncols F) = ceil (true_div (Z.of_nat count) 2) /\
    length (fig_axes F) = fig_nrows F * fig_ncols F /\
    fig_axes F = panels ++ replicate (2 * fig_ncols F - count) blank_axes /\
    length panels = count /\
    Forall (fun ax => length ax = 1) panels /\
    drawn_panels F = count /\
    (Nat.odd count = true ->
       2 * fig_ncols F - count = 1 /\ last (fig_axes F) = Some blank_axes) /\
    (Nat.even count = true -> 2 * fig_ncols F = count).
Proof.
  intros Hdf Hic Hcol Hall count.
  pose proof (create_2x3_sheet_run w df_pl d factor forward_return fwd_ret_1
                periods factor_quantile figsize axvlines t_ic col curves
                Hdf Hic Hcol Hall) as Hrun.
  cbv zeta in Hrun.
  set (ncols := (length periods + 3 + 1) / 2) in *.
  assert (Hlen : length periods = length curves) by (eapply Forall2_length; eauto).
  assert (Hn : count <= 2 * ncols /\ 2 * ncols <= count + 1).
  { unfold ncols, count. pose proof (Nat.div_mod_eq (length periods + 3 + 1) 2).
    pose proof (Nat.mod_upper_bound (length periods + 3 + 1) 2). lia. }
  set (panels := [[IcTs t_ic col axvlines]; [Hist t_ic col];
                  [IcHeatmapMonthly t_ic col]]
                   ++ curve_panels fwd_ret_1 axvlines periods curves).
  assert (Hpl : length panels = count).
  { unfold panels. rewrite length_app, curve_panels_length by done.
    unfold count. reflexivity. }
  assert (Hps : Forall (fun ax => length ax = 1) panels).
  { unfold panels. apply Forall_app. split.
    - repeat constructor.
    - apply curve_panels_single. }
  assert (Hrun' :
    create_2x3_sheet df_pl factor forward_return fwd_ret_1 periods
                     factor_quantile figsize axvlines w
    = (inr PyNone,
       ext w (t_ic :: curves)
           [mkFigure 2 ncols figsize
                     (panels ++ replicate (2 * ncols - count) blank_axes) true])).
  { rewrite Hrun. unfold panels. rewrite <- app_assoc.
    replace (2 * ncols - 3 - length periods) with (2 * ncols - count)
      by (unfold count; lia).
    reflexivity. }
  exists (ext w (t_ic :: curves)
              [mkFigure 2 ncols figsize
                        (panels ++ replicate (2 * ncols - count) blank_axes) true]),
         (mkFigure 2 ncols figsize
                   (panels ++ replicate (2 * ncols - count) blank_axes) true),
         panels.
  split; [exact Hrun' |].
  cbn [figures ext fig_nrows fig_ncols fig_axes].
  split; [reflexivity |]. split; [reflexivity |].
  split; [rewrite ceil_half; unfold ncols, count; apply f_equal;
          apply (f_equal (fun n => n / 2)); lia |].
  split; [rewrite length_app, length_replicate; lia |].
  split; [reflexivity |]. split; [exact Hpl |]. split; [exact Hps |].
  split; [rewrite drawn_panels_app by done; exact Hpl |].
  split.
  - intros Hodd. apply Nat.odd_spec in Hodd. destruct Hodd as [k Hk].
    assert (H1 : 2 * ncols - count = 1).
    { unfold ncols in *. unfold count in *.
      pose proof (Nat.div_mod_eq (length periods + 3 + 1) 2).
      pose proof (Nat.mod_upper_bound (length periods + 3 + 1) 2). lia. }
    split; [exact H1 |]. rewrite H1. cbn [replicate].
    apply last_snoc.
  - intros Heven. apply Nat.even_spec in Heven. destruct Heven as [k Hk].
    unfold ncols in *. unfold count in *.
    pose proof (Nat.div_mod_eq (length periods + 3 + 1) 2).
    pose proof (Nat.mod_upper_bound (length periods + 3 + 1) 2). lia.
Qed.

(** ** The 3x2 sheet *)

Lemma series_max_sound (s : Series) (m : Z) :
  series_max s = Some m ->
  In (Some m) s /\ forall z, In (Some z) s -> (z <= m)%Z.
Proof.
  revert m. induction s as [| c s IH]; intros m Hm; [discriminate |].
  unfold series_max in *. cbn [fold_right] in Hm.
  destruct c as [z |]; cbn [opt_lift] in Hm.
  - destruct (fold_right (opt_lift Z.max) None s) as [m' |] eqn:Hs.
    + injection Hm as <-. destruct (IH m' eq_refl) as [Hin Hub]. split.
      * destruct (Z.max_spec z m') as [[_ ->] | [_ ->]]; [right | left]; auto.
      * intros z' [[= ->] | Hz']; [lia |]. specialize (Hub z' Hz'). lia.
    + injection Hm as <-. split; [by left |].
      intros z' [[= ->] | Hz']; [lia |].
      exfalso. clear IH. induction s as [| c' s IHs]; [destruct Hz' |].
      cbn [fold_right] in Hs. destruct c' as [y |]; cbn [opt_lift] in Hs.
      * destruct (fold_right (opt_lift Z.max) None s); discriminate.
      * destruct Hz' as [Hc | Hz']; [discriminate | auto].
  - destruct (IH m Hm) as [Hin Hub]. split; [by right |].
    intros z' [Hc | Hz']; [discriminate | auto].
Qed.

Lemma series_max_complete (s : Series) (z : Z) :
  In (Some z) s -> exists m, series_max s = Some m.
Proof.
  induction s as [| c s IH]; intros Hz; [destruct Hz |].
  unfold series_max in *. cbn [fold_right].
  destruct Hz as [-> | Hz].
  - cbn [opt_lift]. destruct (fold_right (opt_lift Z.max) None s); eauto.
  - destruct (IH Hz) as [m Hm]. rewrite Hm.
    destruct c; cbn [opt_lift]; eauto.
Qed.

Lemma series_max_permutation (s s' : Series) :
  Permutation s s' -> series_max s' = series_max s.
Proof.
  intros Hp.
  destruct (series_max s) as [m |] eqn:Hs; destruct (series_max s') as [m' |] eqn:Hs'.
  - destruct (series_max_sound _ _ Hs) as [Hin Hub].
    destruct (series_max_sound _ _ Hs') as [Hin' Hub'].
    f_equal. apply Z.le_antisymm.
    + apply Hub. eapply Permutation_in; [symmetry |]; eauto.
    + apply Hub'. eapply Permutation_in; eauto.
  - destruct (series_max_sound _ _ Hs) as [Hin _].
    destruct (series_max_complete s' m) as [m' Hm'];
      [eapply Permutation_in; eauto | congruence].
  - destruct (series_max_sound _ _ Hs') as [Hin' _].
    destruct (series_max_complete s m') as [m Hm];
      [eapply Permutation_in; [symmetry |]; eauto | congruence].
  - reflexivity.
Qed.

Section Sheet3x2.
Context `{Analytics}.

Lemma create_3x2_sheet_run w (df_pl : df_ref) d factor forward_return fwd_ret_1
    period fq periods figsize axvlines t_ic col t_cum t_ac t_to qs :
  tables w !! df_pl = Some d ->
  ic_of d [factor] [forward_return] = inr t_ic ->
  map fst t_ic !! 1 = Some col ->
  cum_return_by_quantile_of d fwd_ret_1 period fq = inr t_cum ->
  auto_correlation_of d factor periods = inr t_ac ->
  quantile_turnover_of d periods fq = inr t_to ->
  assoc fq t_to = Some qs ->
  create_3x2_sheet df_pl factor forward_return fwd_ret_1 period fq periods
                   figsize axvlines w
  = (inr PyNone,
     ext w [t_ic; t_cum; t_ac; t_to]
         [mkFigure 3 2 figsize
            [[IcTs t_ic col axvlines];
             [Hist t_ic col];
             [IcHeatmapMonthly t_ic col];
             [QuantilePortfolio t_cum fwd_ret_1 period axvlines];
             [FactorAutoCorrelation t_ac axvlines];
             [TurnoverQuantile t_to (series_max qs) fq periods axvlines]] true]).
Proof.
  intros Hdf Hic Hcol Hcum Hac Hto Hqs. unfold create_3x2_sheet.
  rewrite <- (ext_nil w) at 1.
  run_with ltac:(by apply plt_subplots_ext).
  cbn [fst snd length app].
  run_with ltac:(eapply (adapter_run (fun t => ic_of t [factor] [forward_return]));
                 eassumption).
  run_with ltac:(apply columns_run, (ext_lookup_new _ _ _ 0); reflexivity).
  run_with ltac:(by apply getitem_run).
  run_with ltac:(eapply getitem2_run; reflexivity).
  run_with ltac:(eapply (renderer_run (fun t => IcTs t col axvlines)
                                      (fun t => ic_summary t col));
                 [apply (ext_lookup_new _ _ _ 0) | |]; reflexivity).
  run_with ltac:(eapply getitem2_run; reflexivity).
  run_with ltac:(eapply (renderer_run (fun t => Hist t col)
                                      (fun t => hist_summary t col));
                 [apply (ext_lookup_new _ _ _ 0) | |]; reflexivity).
  run_with ltac:(eapply getitem2_run; reflexivity).
  run_with ltac:(eapply (renderer_unit_run (fun t => IcHeatmapMonthly t col));
                 [apply (ext_lookup_new _ _ _ 0) | |]; reflexivity).
  run_with ltac:(eapply (adapter_run
                           (fun t => cum_return_by_quantile_of t fwd_ret_1 period fq));
                 eassumption).
  run_with ltac:(eapply getitem2_run; reflexivity).
  run_with ltac:(eapply (renderer_unit_run
                           (fun t => QuantilePortfolio t fwd_ret_1 period axvlines));
                 [apply (ext_lookup_new _ _ _ 1) | |]; reflexivity).
  run_with ltac:(eapply (adapter_run (fun t => auto_correlation_of t factor periods));
                 eassumption).
  run_with ltac:(eapply (adapter_run (fun t => quantile_turnover_of t periods fq));
                 eassumption).
  run_with ltac:(eapply getitem2_run; reflexivity).
  run_with ltac:(eapply (renderer_unit_run
                           (fun t => FactorAutoCorrelation t axvlines));
                 [apply (ext_lookup_new _ _ _ 2) | |]; reflexivity).
  run_with ltac:(eapply get_column_run;
                 [apply (ext_lookup_new _ _ _ 3); reflexivity | eassumption]).
  run_with ltac:(eapply get_column_run;
                 [apply (ext_lookup_new _ _ _ 3); reflexivity | eassumption]).
  run_with ltac:(eapply getitem2_run; reflexivity).
  run_with ltac:(eapply (renderer_unit_run
                           (fun t => TurnoverQuantile t (series_max qs) fq periods
                                                      axvlines));
                 [apply (ext_lookup_new _ _ _ 3) | |]; reflexivity).
  run_with ltac:(eapply tight_layout_ext; reflexivity).
  reflexivity.
Qed.

End Sheet3x2.

(** C2. The turnover-by-quantile panel of the 3x2 sheet, in the last
    slot of the grid, is drawn for the greatest label present in the
    quantile column of the turnover table: a label of that column that
    bounds every label of it, the same for every ordering of the rows. *)
Theorem sheet_3x2_turnover_panel_uses_max_quantile `{Analytics}
    (w : World) (df_pl : df_ref) (d : DataFrame)
    (factor forward_return fwd_ret_1 : string) (period : Z)
    (factor_quantile : string) (periods : list Z) (figsize : Z * Z)
    (axvlines : list string)
    (t_ic : DataFrame) (col : string) (t_cum t_ac t_to : DataFrame) (qs : Series) :
  tables w !! df_pl = Some d ->
  ic_of d [factor] [forward_return] = inr t_ic ->
  map fst t_ic !! 1 = Some col ->
  cum_return_by_quantile_of d fwd_ret_1 period factor_quantile = inr t_cum ->
  auto_correlation_of d factor periods = inr t_ac ->
  quantile_turnover_of d periods factor_quantile = inr t_to ->
  assoc factor_quantile t_to = Some qs ->
  exists w' F q_max,
    create_3x2_sheet df_pl factor forward_return fwd_ret_1 period factor_quantile
                     periods figsize axvlines w = (inr PyNone, w') /\
    figures w' = figures w ++ [F] /\
    fig_axes F !! (2 * fig_ncols F + 1)
      = Some [TurnoverQuantile t_to q_max factor_quantile periods axvlines] /\
    (forall z, In (Some z) qs ->
       exists m, q_max = Some m /\ In (Some m) qs /\ (z <= m)%Z) /\
    (forall qs', Permutation qs qs' -> series_max qs' = q_max).
Proof.
  intros Hdf Hic Hcol Hcum Hac Hto Hqs.
  eexists _, _, (series_max qs). split.
  { eapply create_3x2_sheet_run; eassumption. }
  split; [reflexivity |]. split; [reflexivity |]. split.
  - intros z Hz. destruct (series_max_complete qs z Hz) as [m Hm].
    destruct (series_max_sound qs m Hm) as [Hin Hub]. eauto.
  - intros qs' Hp. by apply series_max_permutation.
Qed.

(** ** What the builders return *)



Section Returns.
Context `{Analytics}.

Lemma create_2x2_sheet_run w (df_pl : df_ref) d factor forward_return fwd_ret_1
    period fq figsize axvlines t_ic col t_cum :
  tables w !! df_pl = Some d ->
  ic_of d [factor] [forward_return] = inr t_ic ->
  map fst t_ic !! 1 = Some col ->
  cum_return_by_quantile_of d fwd_ret_1 period fq = inr t_cum ->
  create_2x2_sheet df_pl factor forward_return fwd_ret_1 period fq figsize axvlines w
  = (inr PyNone,
     ext w [t_ic; t_cum]
         [mkFigure 2 2 figsize
            [[IcTs t_ic col axvlines];
             [IcHeatmapMonthly t_ic col];
             [Hist d factor];
             [QuantilePortfolio t_cum fwd_ret_1 period axvlines]] true]).
Proof.
  intros Hdf Hic Hcol Hcum. unfold create_2x2_sheet.
  rewrite <- (ext_nil w) at 1.
  run_with ltac:(by apply plt_subplots_ext).
  cbn [fst snd length app].
  run_with ltac:(eapply (adapter_run (fun t => ic_of t [factor] [forward_return]));
                 eassumption).
  run_with ltac:(apply columns_run, (ext_lookup_new _ _ _ 0); reflexivity).
  run_with ltac:(by apply getitem_run).
  run_with ltac:(by apply getitem_run).
  run_with ltac:(eapply (renderer_run (fun t => IcTs t col axvlines)
                                      (fun t => ic_summary t col));
                 [apply (ext_lookup_new _ _ _ 0) | |]; reflexivity).
  run_with ltac:(by apply getitem_run).
  run_with ltac:(eapply (renderer_unit_run (fun t => IcHeatmapMonthly t col));
                 [apply (ext_lookup_new _ _ _ 0) | |]; reflexivity).
  run_with ltac:(by apply getitem_run).
  run_with ltac:(eapply (renderer_run (fun t => Hist t factor)
                                      (fun t => hist_summary t factor));
                 [apply ext_lookup_old; eassumption | |]; reflexivity).
  run_with ltac:(eapply (adapter_run
                           (fun t => cum_return_by_quantile_of t fwd_ret_1 period fq));
                 eassumption).
  run_with ltac:(by apply getitem_run).
  run_with ltac:(eapply (renderer_unit_run
                           (fun t => QuantilePortfolio t fwd_ret_1 period axvlines));
                 [apply (ext_lookup_new _ _ _ 1) | |]; reflexivity).
  run_with ltac:(eapply tight_layout_ext; reflexivity).
  reflexivity.
Qed.



End Returns.


(** ** base64 round trip *)

Lemma forallb_below (P : N -> bool) (k : nat) :
  forallb P (map N.of_nat (seq 0 k)) = true ->
  forall n, (n < N.of_nat k)%N -> P n = true.
Proof.
  intros Hall n Hn. rewrite forallb_forall in Hall. apply Hall.
  apply in_map_iff. exists (N.to_nat n). split; [apply N2Nat.id |].
  apply in_seq. lia.
Qed.

Lemma b64_index_char n : (n < 64)%N -> b64_index (b64_char n) = Some n.
Proof.
  intros Hn.
  pose proof (forallb_below
    (fun n => match b64_index (b64_char n) with Some m => N.eqb m n | None => false end)
    64 ltac:(vm_compute; reflexivity) n Hn) as Hb.
  cbv beta in Hb. destruct (b64_index (b64_char n)); [| discriminate].
  apply N.eqb_eq in Hb. by subst.
Qed.

Lemma b64_char_not_pad n : (n < 64)%N -> Ascii.eqb (b64_char n) b64_pad = false.
Proof.
  intros Hn.
  pose proof (forallb_below (fun n => negb (Ascii.eqb (b64_char n) b64_pad))
    64 ltac:(vm_compute; reflexivity) n Hn) as Hb.
  by apply negb_true_iff in Hb.
Qed.

Lemma byte_facts x :
  (x < 256)%N ->
  (sextet1 x < 64)%N /\ (sextet4 x < 64)%N /\
  N.lor (N.shiftl (sextet1 x) 2) (N.land x 3) = x /\
  N.lor (N.shiftl (N.shiftr x 4) 4) (N.land x 15) = x /\
  N.lor (N.shiftl (N.shiftr x 6) 6) (sextet4 x) = x.
Proof.
  intros Hx.
  pose proof (forallb_below
    (fun x => (sextet1 x <? 64)%N && (sextet4 x <? 64)%N
              && N.eqb (N.lor (N.shiftl (sextet1 x) 2) (N.land x 3)) x
              && N.eqb (N.lor (N.shiftl (N.shiftr x 4) 4) (N.land x 15)) x
              && N.eqb (N.lor (N.shiftl (N.shiftr x 6) 6) (sextet4 x)) x)
    256 ltac:(vm_compute; reflexivity) x Hx) as Hb.
  cbv beta in Hb.
  repeat (apply andb_prop in Hb; destruct Hb as [Hb ?]).
  repeat match goal with
         | Hh : N.eqb _ _ = true |- _ => apply N.eqb_eq in Hh
         | Hh : N.ltb _ _ = true |- _ => apply N.ltb_lt in Hh
         end.
  auto 20.
Qed.

Lemma sextet2_facts x y :
  (x < 256)%N -> (y < 256)%N ->
  (sextet2 x y < 64)%N /\
  N.shiftr (sextet2 x y) 4 = N.land x 3 /\
  N.land (sextet2 x y) 15 = N.shiftr y 4.
Proof.
  intros Hx Hy.
  pose proof (forallb_below
    (fun x => forallb (fun y =>
        (sextet2 x y <? 64)%N
        && N.eqb (N.shiftr (sextet2 x y) 4) (N.land x 3)
        && N.eqb (N.land (sextet2 x y) 15) (N.shiftr y 4))
        (map N.of_nat (seq 0 256)))
    256 ltac:(vm_compute; reflexivity) x Hx) as Hb.
  cbv beta in Hb. pose proof (forallb_below _ 256 Hb y Hy) as Hc.
  cbv beta in Hc.
  repeat (apply andb_prop in Hc; destruct Hc as [Hc ?]).
  repeat match goal with
         | Hh : N.eqb _ _ = true |- _ => apply N.eqb_eq in Hh
         | Hh : N.ltb _ _ = true |- _ => apply N.ltb_lt in Hh
         end.
  auto.
Qed.

Lemma sextet3_facts y z :
  (y < 256)%N -> (z < 256)%N ->
  (sextet3 y z < 64)%N /\
  N.shiftr (sextet3 y z) 2 = N.land y 15 /\
  N.land (sextet3 y z) 3 = N.shiftr z 6.
Proof.
  intros Hy Hz.
  pose proof (forallb_below
    (fun y => forallb (fun z =>
        (sextet3 y z <? 64)%N
        && N.eqb (N.shiftr (sextet3 y z) 2) (N.land y 15)
        && N.eqb (N.land (sextet3 y z) 3) (N.shiftr z 6))
        (map N.of_nat (seq 0 256)))
    256 ltac:(vm_compute; reflexivity) y Hy) as Hb.
  cbv beta in Hb. pose proof (forallb_below _ 256 Hb z Hz) as Hc.
  cbv beta in Hc.
  repeat (apply andb_prop in Hc; destruct Hc as [Hc ?]).
  repeat match goal with
         | Hh : N.eqb _ _ = true |- _ => apply N.eqb_eq in Hh
         | Hh : N.ltb _ _ = true |- _ => apply N.ltb_lt in Hh
         end.
  auto.
Qed.

Lemma byte_bound (a : Byte.byte) : (Byte.to_N a < 256)%N.
Proof. pose proof (Byte.to_N_bounded a). lia. Qed.

Lemma b64decode_encode (bs : list Byte.byte) : b64decode (b64encode bs) = Some bs.
Proof.
  assert (Hgen : forall n bs, length bs <= n -> b64decode (b64encode bs) = Some bs).
  { clear bs. induction n as [| n IH]; intros bs Hlen.
    - destruct bs; [reflexivity | cbn in Hlen; lia].
    - destruct bs as [| a [| b [| c rest]]]; [reflexivity | | |].
      + pose proof (byte_bound a) as Ha.
        destruct (byte_facts _ Ha) as (H1 & _ & Hr & _).
        destruct (sextet2_facts _ 0 Ha ltac:(lia)) as (H2 & H2a & _).
        cbn [b64encode b64decode].
        rewrite (b64_index_char _ H1), (b64_index_char _ H2).
        rewrite H2a, Hr. unfold byte_of. rewrite Byte.of_to_N.
        reflexivity.
      + pose proof (byte_bound a) as Ha. pose proof (byte_bound b) as Hb.
        destruct (byte_facts _ Ha) as (H1 & _ & Hr & _).
        destruct (byte_facts _ Hb) as (_ & _ & _ & Hrb & _).
        destruct (sextet2_facts _ _ Ha Hb) as (H2 & H2a & H2b).
        destruct (sextet3_facts _ 0 Hb ltac:(lia)) as (H3 & H3a & _).
        cbn [b64encode b64decode].
        rewrite (b64_index_char _ H1), (b64_index_char _ H2).
        rewrite H2a, Hr. unfold byte_of. rewrite Byte.of_to_N.
        rewrite (b64_char_not_pad _ H3), (b64_index_char _ H3).
        rewrite H2b, H3a, Hrb, Byte.of_to_N.
        reflexivity.
      + pose proof (byte_bound a) as Ha. pose proof (byte_bound b) as Hb.
        pose proof (byte_bound c) as Hc.
        destruct (byte_facts _ Ha) as (H1 & _ & Hr & _).
        destruct (byte_facts _ Hb) as (_ & _ & _ & Hrb & _).
        destruct (byte_facts _ Hc) as (_ & H4 & _ & _ & Hrc).
        destruct (sextet2_facts _ _ Ha Hb) as (H2 & H2a & H2b).
        destruct (sextet3_facts _ _ Hb Hc) as (H3 & H3a & H3b).
        cbn [b64encode b64decode].
        rewrite (b64_index_char _ H1), (b64_index_char _ H2).
        rewrite H2a, Hr. unfold byte_of. rewrite Byte.of_to_N.
        rewrite (b64_char_not_pad _ H3), (b64_index_char _ H3).
        rewrite H2b, H3a, Hrb, Byte.of_to_N.
        rewrite (b64_char_not_pad _ H4), (b64_index_char _ H4).
        rewrite H3b, Hrc, Byte.of_to_N.
        rewrite IH by (cbn in Hlen; lia).
        reflexivity. }
  apply (Hgen (length bs)). lia.
Qed.

(** ** The export adapter *)

Lemma endswith_spec (s suffix : string) :
  endswith s suffix = true <-> exists p, s = p +:+ suffix.
Proof.
  split.
  - induction s as [| c s IH]; cbn [endswith]; intros Hs.
    + apply orb_true_iff in Hs. destruct Hs as [Hs | Hs]; [| discriminate].
      apply String.eqb_eq in Hs. subst. by exists EmptyString.
    + apply orb_true_iff in Hs. destruct Hs as [Hs | Hs].
      * apply String.eqb_eq in Hs. subst. by exists EmptyString.
      * destruct (IH Hs) as [p ->]. by exists (String c p).
  - intros [p ->]. induction p as [| c p IH].
    + change (EmptyString +:+ suffix) with suffix.
      assert (Hr : forall t, endswith t t = true).
      { intros t. destruct t; cbn [endswith]; rewrite String.eqb_refl; reflexivity. }
      apply Hr.
    + change (String c p +:+ suffix) with (String c (p +:+ suffix)).
      cbn [endswith]. rewrite IH. apply orb_true_r.
Qed.

Section ExportProofs.
Context `{Platform}.

Lemma ipynb_to_html_invalid template output no_input no_prompt execute timeout
    open_browser kwargs w :
  endswith (path_absolute template) ".ipynb" = false ->
  ipynb_to_html template output no_input no_prompt execute timeout open_browser
                kwargs w
  = (inl (ValueError "template must be a ipynb file"), w).
Proof. intros Hv. unfold ipynb_to_html. by rewrite Hv. Qed.

Lemma ipynb_to_html_valid template output no_input no_prompt execute timeout
    open_browser kwargs w :
  endswith (path_absolute template) ".ipynb" = true ->
  let commands :=
    composite_command template output no_input no_prompt execute timeout kwargs in
  let r := exit_status (spawned w) commands in
  ipynb_to_html template output no_input no_prompt execute timeout open_browser
                kwargs w
  = (inr r,
     mkWorld (tables w) (figures w) (buffers w) (files w) (environ w)
       (spawned w ++ commands ::
          (if (r =? 0)%Z && open_browser
           then [dquote +:+ resolved_output template output +:+ dquote]
           else []))
       (stdout w ++ ["system: " +:+ commands])).
Proof.
  intros Hv commands r. unfold ipynb_to_html. rewrite Hv. cbn [negb].
  unfold composite_command, resolved_output, shell_line in *.
  destruct (String.eqb os_name "nt");
    unfold bind, print, os_system, set_stdout, set_spawned;
    cbn [spawned stdout tables figures buffers files environ];
    fold commands; fold r;
    destruct ((r =? 0)%Z && open_browser); cbn [ret];
    unfold ret; cbn [spawned stdout tables figures buffers files environ];
    rewrite <- ?app_assoc; reflexivity.
Qed.
End ExportProofs.

(** C3. The notebook export raises [ValueError] exactly when the
    absolutized template path does not end in [.ipynb]; it raises nothing
    else, and when it raises the world is as it was: no process was
    spawned, nothing was printed. *)
Theorem invalid_template_raises_before_spawn `{Platform}
    (template : string) (output : option string)
    (no_input no_prompt execute : bool) (timeout : Z) (open_browser : bool)
    (kwargs : list (string * pyvalue)) (w : World) :
  let r := ipynb_to_html template output no_input no_prompt execute timeout
                         open_browser kwargs w in
  ((exists msg, r.1 = inl (ValueError msg)) <->
     ~ (exists stem, path_absolute template = stem +:+ ".ipynb")) /\
  (forall e, r.1 = inl e ->
     e = ValueError "template must be a ipynb file" /\
     r.2 = w /\ spawned r.2 = spawned w).
Proof.
  intros r. subst r.
  destruct (endswith (path_absolute template) ".ipynb") eqn:Hv.
  - rewrite ipynb_to_html_valid by done. cbn [fst snd]. split.
    + split.
      * intros [msg Hmsg]. discriminate.
      * intros Hno. exfalso. apply Hno. by apply endswith_spec.
    + intros e He. discriminate.
  - rewrite ipynb_to_html_invalid by done. cbn [fst snd]. split.
    + split.
      * intros _ Hex. apply endswith_spec in Hex. congruence.
      * eauto.
    + intros e [= <-]. auto.
Qed.


Lemma upper_char_idem c : upper_char (upper_char c) = upper_char c.
Proof. destruct c as [[] [] [] [] [] [] [] []]; reflexivity. Qed.

Lemma upper_idem s : upper (upper s) = upper s.
Proof. induction s as [| c s IH]; cbn; [done |]. by rewrite upper_char_idem, IH. Qed.

Lemma dict_set_in k v d K V :
  In (K, V) (dict_set k v d) -> (K, V) = (k, v) \/ In (K, V) d.
Proof.
  induction d as [| [k' v'] d IH]; cbn.
  - intros [Heq | []]. by left.
  - destruct (String.eqb k k'); cbn; intros [Heq | Hin]; auto.
    destruct (IH Hin); auto.
Qed.



Lemma env_bindings_sound (kwargs : list (string * pyvalue)) K V :
  In (K, V) (env_bindings kwargs) ->
  upper K = K /\ exists k v, In (k, v) kwargs /\ K = upper k /\ V = py_str v.
Proof.
  unfold env_bindings.
  assert (Hgen : forall (kw : list (string * pyvalue)) (d : pydict),
    (forall K V, In (K, V) d ->
       upper K = K /\ exists k v, In (k, v) kwargs /\ K = upper k /\ V = py_str v) ->
    (forall kv, In kv kw -> In kv kwargs) ->
    forall K V,
      In (K, V) (fold_left (fun d kv => dict_set (upper kv.1) (py_str kv.2) d) kw d) ->
      upper K = K /\ exists k v, In (k, v) kwargs /\ K = upper k /\ V = py_str v).
  { induction kw as [| [k v] kw IH]; intros d Hd Hsub K' V' Hin; cbn in Hin.
    - by apply Hd.
    - eapply IH; [| | exact Hin].
      + intros K0 V0 H0. apply dict_set_in in H0. destruct H0 as [[= -> ->] | H0].
        * split; [apply upper_idem |]. exists k, v. split; [| done].
          apply Hsub. by left.
        * by apply Hd.
      + intros kv Hkv. apply Hsub. by right. }
  apply Hgen; [intros ? ? [] | auto].
Qed.



Section Embed.
Context `{Platform}.

Lemma fig_to_img_run (fig : fig_ref) (format : option string) w F bs :
  figures w !! fig = Some F ->
  savefig_bytes F (default "png" format) = inr bs ->
  fig_to_img fig format w
  = (inr ("<img src=" +:+ dquote +:+ "data:image/" +:+ default "png" format
            +:+ ";base64," +:+ b64encode bs +:+ dquote +:+ " />"),
     set_buffers w (buffers w ++ [bs])).
Proof.
  intros HF Hbs. unfold fig_to_img.
  unfold bind at 1. unfold io_BytesIO at 1.
  unfold bind at 1. unfold savefig at 1.
  cbn [figures set_buffers buffers]. rewrite HF, Hbs.
  rewrite list_lookup_middle by reflexivity.
  unfold bind at 1. unfold getvalue at 1.
  cbn [figures set_buffers buffers tables files environ spawned stdout].
  rewrite insert_app_r_alt by lia. rewrite Nat.sub_diag. cbn [insert list_insert].
  rewrite list_lookup_middle by reflexivity.
  cbn [app]. reflexivity.
Qed.

End Embed.

(** C7. For a live figure and a format the backend can write, the
    embedding returns exactly the [img] tag around
    [data:image/<format>;base64,<payload>], the payload being the base64
    text of the bytes the backend produced (decoding it gives them back);
    the bytes go through an in-memory buffer only: no file is written, no
    process is spawned, the environment and the figures are untouched;
    and leaving the format out means [png]. *)
Theorem fig_to_img_inline_markup `{Platform}
    (fig : fig_ref) (format : option string) (w : World)
    (F : Figure) (bs : list Byte.byte) :
  let fmt := default "png" format in
  figures w !! fig = Some F ->
  savefig_bytes F fmt = inr bs ->
  exists payload w',
    fig_to_img fig format w
    = (inr ("<img src=" +:+ dquote +:+ "data:image/" +:+ fmt +:+ ";base64,"
              +:+ payload +:+ dquote +:+ " />"), w') /\
    payload = b64encode bs /\
    b64decode payload = Some bs /\
    files w' = files w /\
    spawned w' = spawned w /\
    environ w' = environ w /\
    figures w' = figures w /\
    fig_to_img fig None = fig_to_img fig (Some "png").
Proof.
  intros fmt HF Hbs. exists (b64encode bs). eexists. split.
  - by apply (fig_to_img_run fig format w F bs).
  - split; [reflexivity |]. split; [apply b64decode_encode |].
    repeat (split; [reflexivity |]). reflexivity.
Qed.

(** ** Evaluation on concrete inputs *)

(** The default holding periods (2, 5, 10) give six panels on a grid of
    2 rows and 3 columns, no slot blank. *)
Example sheet_2x3_default_periods :
  let w' := (@create_2x3_sheet demo_analytics 0 "alpha" "ret_5" "ret_1"
               default_periods_2x3 _QUANTILE_ default_figsize_2x3 []
               demo_world).2 in
  map (fun F => (fig_nrows F, fig_ncols F, map (fun ax => length ax) (fig_axes F)))
      (figures w')
  = [(2, 3, [1; 1; 1; 1; 1; 1])].
Proof. vm_compute. reflexivity. Qed.

(** The demonstration table through the 1x3 builder, with and without
    reference lines. *)
Example sheet_1x3_demo_series :
  map (fun axv => returned_series
                    (@create_1x3_sheet demo_analytics 0 "alpha" "ret_5" "ret_1"
                       default_period _QUANTILE_ default_figsize_1x3 axv
                       demo_world))
      [[]; ["2020-01-02"; "2020-03-01"]]
  = [inr (Some ([("count", inject_Z 5)], [("count", inject_Z 5)],
                Some (demo_curve 5)));
     inr (Some ([("count", inject_Z 5)], [("count", inject_Z 5)],
                Some (demo_curve 5)))].
Proof. vm_compute. reflexivity. Qed.

Example b64encode_rfc4648 :
  map (fun s => b64encode (bytes_of_string s))
      ["f"; "fo"; "foo"; "foob"; "fooba"; "foobar"]
  = ["Zg=="; "Zm8="; "Zm9v"; "Zm9vYg=="; "Zm9vYmE="; "Zm9vYmFy"].
Proof. vm_compute. reflexivity. Qed.

Example posix_absolute_examples :
  map (posix_absolute "/home/quant")
      ["nb/demo.ipynb"; "./nb//demo.ipynb/"; "/srv/x.ipynb"; "//srv/x.ipynb"]
  = ["/home/quant/nb/demo.ipynb"; "/home/quant/nb/demo.ipynb";
     "/srv/x.ipynb"; "//srv/x.ipynb"].
Proof. vm_compute. reflexivity. Qed.

Example replace_examples :
  map (replace ".ipynb" ".html")
      ["/a/demo.ipynb"; "/a.ipynb.d/demo.ipynb"; "/a/demo.ipyn"]
  = ["/a/demo.html"; "/a.html.d/demo.html"; "/a/demo.ipyn"].
Proof. vm_compute. reflexivity. Qed.

Lemma prefix_split (a b : string) :
  String.prefix a b = true -> exists q, b = a +:+ q.
Proof.
  revert b. induction a as [| c a IH]; intros b Hp.
  - by exists b.
  - destruct b as [| c' b]; [discriminate |]. cbn in Hp.
    destruct (ascii_dec c c') as [-> | Hne]; [| discriminate].
    destruct (IH b Hp) as [q ->]. by exists q.
Qed.

Lemma prefix_refl (a : string) : String.prefix a a = true.
Proof.
  induction a as [| c a IH]; [reflexivity |]. cbn.
  by destruct (ascii_dec c c).
Qed.

Lemma replace_from_skip_all (old new s : string) :
  replace_from old new (String.length s) s = EmptyString.
Proof. induction s as [| c s IH]; [reflexivity |]. exact IH. Qed.

Lemma append_empty_r (s : string) : s +:+ EmptyString = s.
Proof.
  induction s as [| c s IH]; [reflexivity |].
  change (String c s +:+ EmptyString) with (String c (s +:+ EmptyString)).
  by rewrite IH.
Qed.

Lemma append_length (a b : string) :
  String.length (a +:+ b) = String.length a + String.length b.
Proof.
  induction a as [| c a IH]; [reflexivity |].
  change (String c a +:+ b) with (String c (a +:+ b)).
  cbn [String.length]. by rewrite IH.
Qed.

(** Where [str.replace] does what an extension change would do: [old]
    occurs in [stem ++ old] at the end only. *)
Lemma replace_final_occurrence (old new stem : string) :
  old <> EmptyString ->
  (forall p q, stem +:+ old = p +:+ old +:+ q -> q = EmptyString) ->
  replace old new (stem +:+ old) = stem +:+ new.
Proof.
  intros Hold. unfold replace.
  induction stem as [| c stem IH]; intros Honly.
  - change (EmptyString +:+ old) with old. change (EmptyString +:+ new) with new.
    destruct old as [| c old]; [done |].
    cbn [replace_from]. rewrite prefix_refl.
    cbn [String.length Nat.sub]. rewrite Nat.sub_0_r.
    by rewrite replace_from_skip_all, append_empty_r.
  - change (String c stem +:+ old) with (String c (stem +:+ old)).
    change (String c stem +:+ new) with (String c (stem +:+ new)).
    cbn [replace_from].
    destruct (String.prefix old (String c (stem +:+ old))) eqn:Hp.
    + exfalso. apply prefix_split in Hp. destruct Hp as [q Hq].
      assert (q = EmptyString) by (apply (Honly EmptyString q); exact Hq).
      subst q. apply (f_equal String.length) in Hq.
      rewrite append_empty_r in Hq. cbn in Hq. rewrite append_length in Hq. lia.
    + f_equal. apply IH. intros p q Hpq.
      apply (Honly (String c p) q).
      change (String c (stem +:+ old) = String c (p +:+ old +:+ q)).
      by rewrite Hpq.
Qed.

Lemma resolved_output_single_extension `{Platform} (template stem : string) :
  path_absolute template = stem +:+ ".ipynb" ->
  (forall p q, stem +:+ ".ipynb" = p +:+ ".ipynb" +:+ q -> q = EmptyString) ->
  resolved_output template None = path_absolute (stem +:+ ".html").
Proof.
  intros Habs Honly. unfold resolved_output. rewrite Habs.
  by rewrite replace_final_occurrence.
Qed.

(** C4, the defect. With the output left out, a notebook that lives in a
    Jupyter checkpoint directory is converted into a file of another
    directory: [str.replace] rewrites every [.ipynb] of the absolute
    template path, not the final extension only. *)
Lemma default_output_rewrites_every_occurrence :
  let r := @ipynb_to_html demo_platform checkpoint_template None
                          false false true 120 false [] empty_world in
  r.1 = inr 0%Z /\
  spawned r.2
  = [nbconvert_command checkpoint_template
       "/home/quant/.html_checkpoints/demo-checkpoint.html"
       EmptyString EmptyString "--execute" 120] /\
  @resolved_output demo_platform checkpoint_template None
  = "/home/quant/.html_checkpoints/demo-checkpoint.html" /\
  @resolved_output demo_platform checkpoint_template None
  <> "/home/quant/.ipynb_checkpoints/demo-checkpoint.html".
Proof. vm_compute. repeat split; try reflexivity. discriminate. Qed.


(** ** The theorems at work on the demonstration data *)

(** Two holding periods give five panels: three columns, the sixth slot
    blank. *)
Lemma sheet_2x3_grid_witness :
  tables demo_world !! 0 = Some demo_table /\
  @ic_of demo_analytics demo_table ["alpha"] ["ret_5"] = inr demo_ic_table /\
  map fst demo_ic_table !! 1 = Some "alpha__ret_5" /\
  Forall2 (fun p t => @cum_return_by_quantile_of demo_analytics demo_table
                        "ret_1" p "factor_quantile" = inr t)
          [2; 5]%Z [demo_curve 2; demo_curve 5] /\
  exists w' F panels,
    @create_2x3_sheet demo_analytics 0 "alpha" "ret_5" "ret_1" [2; 5]%Z
                      "factor_quantile" (12, 9)%Z ["2020-01-02"] demo_world
    = (inr PyNone, w') /\
    figures w' = figures demo_world ++ [F] /\
    fig_nrows F = 2 /\
    Z.of_nat (fig_ncols F) = ceil (true_div (Z.of_nat 5) 2) /\
    length (fig_axes F) = fig_nrows F * fig_ncols F /\
    fig_axes F = panels ++ replicate (2 * fig_ncols F - 5) blank_axes /\
    length panels = 5 /\
    Forall (fun ax => length ax = 1) panels /\
    drawn_panels F = 5 /\
    (Nat.odd 5 = true ->
       2 * fig_ncols F - 5 = 1 /\ last (fig_axes F) = Some blank_axes) /\
    (Nat.even 5 = true -> 2 * fig_ncols F = 5).
Proof.
  assert (H1 : tables demo_world !! 0 = Some demo_table) by reflexivity.
  assert (H2 : @ic_of demo_analytics demo_table ["alpha"] ["ret_5"]
               = inr demo_ic_table) by reflexivity.
  assert (H3 : map fst demo_ic_table !! 1 = Some "alpha__ret_5") by reflexivity.
  assert (H4 : Forall2 (fun p t => @cum_return_by_quantile_of demo_analytics
                                     demo_table "ret_1" p "factor_quantile" = inr t)
                       [2; 5]%Z [demo_curve 2; demo_curve 5])
    by (repeat constructor).
  split; [exact H1 |]. split; [exact H2 |]. split; [exact H3 |].
  split; [exact H4 |].
  exact (@sheet_2x3_grid demo_analytics demo_world 0 demo_table
           "alpha" "ret_5" "ret_1" [2; 5]%Z "factor_quantile" (12, 9)%Z
           ["2020-01-02"] demo_ic_table "alpha__ret_5"
           [demo_curve 2; demo_curve 5] H1 H2 H3 H4).
Defined.

(** The labels 3, 5, 1, 4, 2 of the demonstration table: the panel is
    drawn for 5. *)
Lemma sheet_3x2_turnover_panel_witness :
  tables demo_world !! 0 = Some demo_table /\
  assoc "factor_quantile" demo_turnover_table
  = Some [Some 3; Some 5; Some 1; Some 4; Some 2]%Z /\
  exists w' F q_max,
    @create_3x2_sheet demo_analytics 0 "alpha" "ret_5" "ret_1" 5
                      "factor_quantile" [1; 5]%Z (12, 14)%Z [] demo_world
    = (inr PyNone, w') /\
    figures w' = figures demo_world ++ [F] /\
    fig_axes F !! (2 * fig_ncols F + 1)
    = Some [TurnoverQuantile demo_turnover_table q_max "factor_quantile"
                             [1; 5]%Z []] /\
    (forall z, In (Some z) [Some 3; Some 5; Some 1; Some 4; Some 2]%Z ->
       exists m, q_max = Some m /\
                 In (Some m) [Some 3; Some 5; Some 1; Some 4; Some 2]%Z /\
                 (z <= m)%Z) /\
    (forall qs', Permutation [Some 3; Some 5; Some 1; Some 4; Some 2]%Z qs' ->
       series_max qs' = q_max).
Proof.
  split; [reflexivity |]. split; [reflexivity |].
  apply (@sheet_3x2_turnover_panel_uses_max_quantile demo_analytics demo_world 0
           demo_table "alpha" "ret_5" "ret_1" 5 "factor_quantile" [1; 5]%Z
           (12, 14)%Z [] demo_ic_table "alpha__ret_5" (demo_curve 5)
           demo_ac_table demo_turnover_table
           [Some 3; Some 5; Some 1; Some 4; Some 2]%Z);
    reflexivity.
Defined.


(** The four builders on the demonstration table. *)
Lemma sheet_builds_read_only_witness :
  tables demo_world !! 0 = Some demo_table /\
  @read_only_single_source demo_analytics demo_world 0 demo_table "factor_quantile"
    (@create_2x2_sheet demo_analytics 0 "alpha" "ret_5" "ret_1" 5
                       "factor_quantile" default_figsize_2x3 [] demo_world) /\
  @read_only_single_source demo_analytics demo_world 0 demo_table "factor_quantile"
    (@create_1x3_sheet demo_analytics 0 "alpha" "ret_5" "ret_1" 5
                       "factor_quantile" default_figsize_2x3 [] demo_world) /\
  @read_only_single_source demo_analytics demo_world 0 demo_table "factor_quantile"
    (@create_2x3_sheet demo_analytics 0 "alpha" "ret_5" "ret_1"
                       default_periods_2x3 "factor_quantile" default_figsize_2x3
                       [] demo_world) /\
  @read_only_single_source demo_analytics demo_world 0 demo_table "factor_quantile"
    (@create_3x2_sheet demo_analytics 0 "alpha" "ret_5" "ret_1" 5
                       "factor_quantile" default_periods_2x3 default_figsize_2x3
                       [] demo_world).
Proof.
  split; [reflexivity |].
  apply (@sheet_builds_read_only_single_source demo_analytics demo_world 0
           demo_table "alpha" "ret_5" "ret_1" "factor_quantile" 5
           default_periods_2x3 default_figsize_2x3 []).
  reflexivity.
Defined.



(** A blank figure embedded with the default format. *)
Lemma fig_to_img_witness :
  figures demo_figure_world !! 0 = Some (new_figure 1 1 (4, 3)%Z) /\
  @savefig_bytes demo_platform (new_figure 1 1 (4, 3)%Z) "png"
  = inr (bytes_of_string "png:0") /\
  exists payload w',
    @fig_to_img demo_platform 0 None demo_figure_world
    = (inr ("<img src=" +:+ dquote +:+ "data:image/" +:+ "png" +:+ ";base64,"
              +:+ payload +:+ dquote +:+ " />"), w') /\
    payload = b64encode (bytes_of_string "png:0") /\
    b64decode payload = Some (bytes_of_string "png:0") /\
    files w' = files demo_figure_world /\
    spawned w' = spawned demo_figure_world /\
    environ w' = environ demo_figure_world /\
    figures w' = figures demo_figure_world /\
    @fig_to_img demo_platform 0 None = @fig_to_img demo_platform 0 (Some "png").
Proof.
  split; [reflexivity |]. split; [reflexivity |].
  apply (@fig_to_img_inline_markup demo_platform 0 None demo_figure_world
           (new_figure 1 1 (4, 3)%Z) (bytes_of_string "png:0"));
    reflexivity.
Defined.

(** * Beyond the claims: failures, partial sheets and the export adapter *)

(** ** Failures of the IC step *)

Section SheetFailures.
Context `{Analytics}.

Lemma calc_ic_fails w Fs (df_pl : df_ref) d factor forward_return e :
  tables w !! df_pl = Some d ->
  ic_of d [factor] [forward_return] = inl e ->
  calc_ic df_pl [factor] [forward_return] (ext w [] Fs) = (inl e, ext w [] Fs).
Proof.
  intros Hdf Hic.
  eapply (adapter_err (fun t => ic_of t [factor] [forward_return]));
    [apply ext_lookup_old |]; eassumption.
Qed.

Lemma grid_width_positive (periods : list Z) :
  (0 < Z.of_nat ((length periods + 3 + 1) / 2))%Z.
Proof.
  pose proof (Nat.div_mod_eq (length periods + 3 + 1) 2).
  pose proof (Nat.mod_upper_bound (length periods + 3 + 1) 2). lia.
Qed.

End SheetFailures.

(** X1. When the IC adapter fails on the caller's table, each of the
    four builders raises that very exception, and by then it has already
    registered its figure: a blank grid of the layout's shape stays in
    pyplot's registry, and nothing else has changed. *)
Theorem ic_failure_leaves_blank_figure `{Analytics}
    (w : World) (df_pl : df_ref) (d : DataFrame)
    (factor forward_return fwd_ret_1 factor_quantile : string)
    (period : Z) (periods : list Z) (figsize : Z * Z) (axvlines : list string)
    (e : exn) :
  tables w !! df_pl = Some d ->
  ic_of d [factor] [forward_return] = inl e ->
  create_2x2_sheet df_pl factor forward_return fwd_ret_1 period factor_quantile
                   figsize axvlines w
  = (inl e, ext w [] [new_figure 2 2 figsize]) /\
  create_1x3_sheet df_pl factor forward_return fwd_ret_1 period factor_quantile
                   figsize axvlines w
  = (inl e, ext w [] [new_figure 1 3 figsize]) /\
  create_2x3_sheet df_pl factor forward_return fwd_ret_1 periods factor_quantile
                   figsize axvlines w
  = (inl e, ext w [] [new_figure 2 ((length periods + 3 + 1) / 2) figsize]) /\
  create_3x2_sheet df_pl factor forward_return fwd_ret_1 period factor_quantile
                   periods figsize axvlines w
  = (inl e, ext w [] [new_figure 3 2 figsize]).
Proof.
  intros Hdf Hic. split; [| split; [| split]].
  - unfold create_2x2_sheet. rewrite <- (ext_nil w) at 1.
    run_with ltac:(by apply plt_subplots_ext).
    fail_with ltac:(eapply calc_ic_fails; eassumption). reflexivity.
  - unfold create_1x3_sheet. rewrite <- (ext_nil w) at 1.
    run_with ltac:(by apply plt_subplots_ext).
    fail_with ltac:(eapply calc_ic_fails; eassumption). reflexivity.
  - unfold create_2x3_sheet. rewrite ceil_half.
    rewrite <- (ext_nil w) at 1.
    run_with ltac:(apply plt_subplots_ext; [lia | apply grid_width_positive]).
    fail_with ltac:(eapply calc_ic_fails; eassumption).
    rewrite Nat2Z.id. reflexivity.
  - unfold create_3x2_sheet. rewrite <- (ext_nil w) at 1.
    run_with ltac:(by apply plt_subplots_ext).
    fail_with ltac:(eapply calc_ic_fails; eassumption). reflexivity.
Qed.

(** X2. When the IC table has fewer than two columns, [df_ic.columns[1]]
    raises [IndexError] in each of the four builders; the IC table has
    been computed and the figure registered, and no panel is drawn. *)
Theorem narrow_ic_table_raises_index_error `{Analytics}
    (w : World) (df_pl : df_ref) (d : DataFrame)
    (factor forward_return fwd_ret_1 factor_quantile : string)
    (period : Z) (periods : list Z) (figsize : Z * Z) (axvlines : list string)
    (t_ic : DataFrame) :
  tables w !! df_pl = Some d ->
  ic_of d [factor] [forward_return] = inr t_ic ->
  length t_ic < 2 ->
  create_2x2_sheet df_pl factor forward_return fwd_ret_1 period factor_quantile
                   figsize axvlines w
  = (inl IndexError, ext w [t_ic] [new_figure 2 2 figsize]) /\
  create_1x3_sheet df_pl factor forward_return fwd_ret_1 period factor_quantile
                   figsize axvlines w
  = (inl IndexError, ext w [t_ic] [new_figure 1 3 figsize]) /\
  create_2x3_sheet df_pl factor forward_return fwd_ret_1 periods factor_quantile
                   figsize axvlines w
  = (inl IndexError,
     ext w [t_ic] [new_figure 2 ((length periods + 3 + 1) / 2) figsize]) /\
  create_3x2_sheet df_pl factor forward_return fwd_ret_1 period factor_quantile
                   periods figsize axvlines w
  = (inl IndexError, ext w [t_ic] [new_figure 3 2 figsize]).
Proof.
  intros Hdf Hic Hlen.
  assert (Hcol : map fst t_ic !! 1 = None).
  { apply lookup_ge_None. rewrite length_map. lia. }
  split; [| split; [| split]].
  - unfold create_2x2_sheet. rewrite <- (ext_nil w) at 1.
    run_with ltac:(by apply plt_subplots_ext).
    cbn [fst snd length app].
    run_with ltac:(eapply (adapter_run (fun t => ic_of t [factor] [forward_return]));
                   eassumption).
    run_with ltac:(apply columns_run, (ext_lookup_new _ _ _ 0); reflexivity).
    fail_with ltac:(by apply getitem_err). reflexivity.
  - unfold create_1x3_sheet. rewrite <- (ext_nil w) at 1.
    run_with ltac:(by apply plt_subplots_ext).
    cbn [fst snd length app].
    run_with ltac:(eapply (adapter_run (fun t => ic_of t [factor] [forward_return]));
                   eassumption).
    run_with ltac:(apply columns_run, (ext_lookup_new _ _ _ 0); reflexivity).
    fail_with ltac:(by apply getitem_err). reflexivity.
  - unfold create_2x3_sheet. rewrite ceil_half.
    rewrite <- (ext_nil w) at 1.
    run_with ltac:(apply plt_subplots_ext; [lia | apply grid_width_positive]).
    rewrite Nat2Z.id. cbn [fst snd length app].
    run_with ltac:(eapply (adapter_run (fun t => ic_of t [factor] [forward_return]));
                   eassumption).
    run_with ltac:(apply columns_run, (ext_lookup_new _ _ _ 0); reflexivity).
    fail_with ltac:(by apply getitem_err). reflexivity.
  - unfold create_3x2_sheet. rewrite <- (ext_nil w) at 1.
    run_with ltac:(by apply plt_subplots_ext).
    cbn [fst snd length app].
    run_with ltac:(eapply (adapter_run (fun t => ic_of t [factor] [forward_return]));
                   eassumption).
    run_with ltac:(apply columns_run, (ext_lookup_new _ _ _ 0); reflexivity).
    fail_with ltac:(by apply getitem_err). reflexivity.
Qed.

(** ** A holding period that fails in the 2x3 sheet *)

Lemma enumerate_from_app {A} (i : nat) (l1 l2 : list A) :
  enumerate_from i (l1 ++ l2)
  = enumerate_from i l1 ++ enumerate_from (i + length l1) l2.
Proof.
  revert i. induction l1 as [| x l1 IH]; intros i; cbn.
  - by rewrite Nat.add_0_r.
  - rewrite IH. do 3 f_equal. lia.
Qed.

Lemma for_each_app_run {A} (l1 l2 : list A) (body : A -> M unit) w w1 :
  for_each l1 body w = (inr tt, w1) ->
  for_each (l1 ++ l2) body w = for_each l2 body w1.
Proof.
  revert w. induction l1 as [| x l1 IH]; intros w Hrun.
  - cbn in Hrun. injection Hrun as <-. reflexivity.
  - cbn [app for_each] in *. unfold bind in *.
    destruct (body x w) as [[e | []] w2]; [discriminate |].
    by apply IH.
Qed.

Section Sheet2x3Failure.
Context `{Analytics}.

(** One turn of the loop of [create_2x3_sheet] whose adapter call
    succeeds. *)
Lemma curve_body_run w (df_pl : df_ref) d fwd_ret_1 fq axvlines ncols figsize
    i p t T (pre : list Axes) m :
  tables w !! df_pl = Some d ->
  cum_return_by_quantile_of d fwd_ret_1 p fq = inr t ->
  length pre = 3 + i ->
  length pre + S m = 2 * ncols ->
  (df_cum_ret <- calc_cum_return_by_quantile df_pl fwd_ret_1 p fq ;;
   ax <- getitem (flatten (grid_refs (length (figures w) + 0) 2 ncols)) (3 + i) ;;
   plot_quantile_portfolio df_cum_ret fwd_ret_1 p axvlines ax)
    (ext w T [mkFigure 2 ncols figsize (pre ++ replicate (S m) blank_axes) false])
  = (inr tt,
     ext w (T ++ [t])
         [mkFigure 2 ncols figsize
            ((pre ++ [[QuantilePortfolio t fwd_ret_1 p axvlines]])
               ++ replicate m blank_axes) false]).
Proof.
  intros Hdf Hp Hpre Hlen.
  run_with ltac:(eapply (adapter_run
                           (fun t => cum_return_by_quantile_of t fwd_ret_1 p fq));
                 eassumption).
  run_with ltac:(apply getitem_run, grid_refs_flatten_lookup; lia).
  etransitivity;
    [eapply (renderer_unit_run
               (fun t => QuantilePortfolio t fwd_ret_1 p axvlines));
     [ apply ext_lookup_new, list_lookup_middle; reflexivity
     | reflexivity
     | cbn [fig_axes]; rewrite lookup_app_r by lia;
       rewrite Hpre, Nat.sub_diag; reflexivity] |].
  unfold set_axes, blank_axes.
  cbn [fig_axes fig_nrows fig_ncols fig_size fig_tight app list_insert insert].
  rewrite insert_app_r_alt by lia.
  rewrite Hpre, Nat.sub_diag. cbn [insert list_insert].
  by rewrite <- app_assoc.
Qed.

Lemma create_2x3_sheet_failing_period w (df_pl : df_ref) d factor forward_return
    fwd_ret_1 fq figsize axvlines t_ic col done p rest curves e :
  tables w !! df_pl = Some d ->
  ic_of d [factor] [forward_return] = inr t_ic ->
  map fst t_ic !! 1 = Some col ->
  Forall2 (fun p t => cum_return_by_quantile_of d fwd_ret_1 p fq = inr t)
          done curves ->
  cum_return_by_quantile_of d fwd_ret_1 p fq = inl e ->
  let periods := done ++ p :: rest in
  let ncols := (length periods + 3 + 1) / 2 in
  create_2x3_sheet df_pl factor forward_return fwd_ret_1 periods fq figsize axvlines w
  = (inl e,
     ext w (t_ic :: curves)
         [mkFigure 2 ncols figsize
            ([[IcTs t_ic col axvlines]; [Hist t_ic col]; [IcHeatmapMonthly t_ic col]]
               ++ curve_panels fwd_ret_1 axvlines done curves
               ++ replicate (2 * ncols - 3 - length done) blank_axes) false]).
Proof.
  intros Hdf Hic Hcol Hall Hfail periods ncols. unfold create_2x3_sheet.
  rewrite ceil_half. fold ncols.
  assert (Hn : length periods + 3 <= 2 * ncols).
  { unfold ncols. pose proof (Nat.div_mod_eq (length periods + 3 + 1) 2).
    pose proof (Nat.mod_upper_bound (length periods + 3 + 1) 2). lia. }
  assert (Hlen : length periods = length done + S (length rest)).
  { unfold periods. rewrite length_app. reflexivity. }
  rewrite <- (ext_nil w) at 1.
  run_with ltac:(apply plt_subplots_ext; lia).
  rewrite Nat2Z.id. change (Z.to_nat 2) with 2.
  cbn [fst snd length app].
  run_with ltac:(eapply (adapter_run (fun t => ic_of t [factor] [forward_return]));
                 eassumption).
  run_with ltac:(apply columns_run, (ext_lookup_new _ _ _ 0); reflexivity).
  run_with ltac:(by apply getitem_run).
  unfold new_figure.
  destruct (2 * ncols) as [| [| [| m]]] eqn:Hm; [lia | lia | lia |].
  cbn [replicate].
  run_with ltac:(apply getitem_run, grid_refs_flatten_lookup; lia).
  run_with ltac:(eapply (renderer_run (fun t => IcTs t col axvlines)
                                      (fun t => ic_summary t col));
                 [apply (ext_lookup_new _ _ _ 0) | |]; reflexivity).
  run_with ltac:(apply getitem_run, grid_refs_flatten_lookup; lia).
  run_with ltac:(eapply (renderer_run (fun t => Hist t col)
                                      (fun t => hist_summary t col));
                 [apply (ext_lookup_new _ _ _ 0) | |]; reflexivity).
  run_with ltac:(apply getitem_run, grid_refs_flatten_lookup; lia).
  run_with ltac:(eapply (renderer_unit_run (fun t => IcHeatmapMonthly t col));
                 [apply (ext_lookup_new _ _ _ 0) | |]; reflexivity).
  unfold set_axes, blank_axes.
  cbn [fig_axes fig_nrows fig_ncols fig_size fig_tight app].
  unfold enumerate, periods. rewrite enumerate_from_app.
  fail_with ltac:(
    erewrite for_each_app_run;
    [| eapply (curve_loop_run w d fwd_ret_1 fq axvlines 2 ncols figsize (3 + m))
         with (i := 0) (T := [t_ic]) (m := m)
              (pre := [[IcTs t_ic col axvlines]; [Hist t_ic col];
                       [IcHeatmapMonthly t_ic col]]);
       [| eassumption | reflexivity | reflexivity | lia]];
    [ cbn [enumerate_from for_each fst snd];
      eapply bind_err, bind_err;
      eapply (adapter_err (fun t => cum_return_by_quantile_of t fwd_ret_1 p fq));
      [apply ext_lookup_old |]; eassumption
    | intros i q t T pre m' Hq Hpre Hlen'; cbn [fst snd];
      eapply curve_body_run; [eassumption | eassumption | eassumption | lia] ]).
  cbn [app Nat.sub]. rewrite Nat.sub_0_r. reflexivity.
Qed.

End Sheet2x3Failure.

(** X3. When the cumulative-return adapter fails on one holding period,
    the 2x3 builder raises that exception at once: the panels of the
    periods before it are drawn, the later periods are never tried, and
    the figure is left registered without its final layout pass. *)
Theorem sheet_2x3_stops_at_failing_period `{Analytics}
    (w : World) (df_pl : df_ref) (d : DataFrame)
    (factor forward_return fwd_ret_1 factor_quantile : string)
    (figsize : Z * Z) (axvlines : list string)
    (t_ic : DataFrame) (col : string) (done : list Z) (p : Z) (rest : list Z)
    (curves : list DataFrame) (e : exn) :
  tables w !! df_pl = Some d ->
  ic_of d [factor] [forward_return] = inr t_ic ->
  map fst t_ic !! 1 = Some col ->
  Forall2 (fun p t => cum_return_by_quantile_of d fwd_ret_1 p factor_quantile = inr t)
          done curves ->
  cum_return_by_quantile_of d fwd_ret_1 p factor_quantile = inl e ->
  exists F,
    create_2x3_sheet df_pl factor forward_return fwd_ret_1 (done ++ p :: rest)
                     factor_quantile figsize axvlines w
    = (inl e, ext w (t_ic :: curves) [F]) /\
    drawn_panels F = 3 + length done /\
    fig_tight F = false /\
    length (fig_axes F) = 2 * ((length (done ++ p :: rest) + 3 + 1) / 2).
Proof.
  intros Hdf Hic Hcol Hall Hfail.
  pose proof (create_2x3_sheet_failing_period w df_pl d factor forward_return
                fwd_ret_1 factor_quantile figsize axvlines t_ic col done p rest
                curves e Hdf Hic Hcol Hall Hfail) as Hrun.
  cbv zeta in Hrun.
  set (ncols := (length (done ++ p :: rest) + 3 + 1) / 2) in *.
  assert (Hn : length (done ++ p :: rest) + 3 <= 2 * ncols).
  { unfold ncols.
    pose proof (Nat.div_mod_eq (length (done ++ p :: rest) + 3 + 1) 2).
    pose proof (Nat.mod_upper_bound (length (done ++ p :: rest) + 3 + 1) 2). lia. }
  rewrite length_app in Hn. cbn [length] in Hn.
  assert (Hlen : length done = length curves) by (eapply Forall2_length; eauto).
  eexists. split; [exact Hrun |].
  split; [| split; [reflexivity |]].
  - rewrite app_assoc, drawn_panels_app.
    + rewrite length_app, curve_panels_length by done. reflexivity.
    + apply Forall_app. split; [repeat constructor | apply curve_panels_single].
  - cbn [fig_axes]. rewrite !length_app, length_replicate,
      curve_panels_length by done.
    cbn [length]. lia.
Qed.

(** X4. On a successful 2x3 build the slots are filled in a fixed order:
    IC time series, IC histogram, IC monthly heatmap, then one
    cumulative-return panel per holding period, in the order of
    [periods] and each drawn from the curve computed for its own period
    (a repeated period gives a repeated panel). The figure gets its
    final layout pass and the allocated tables are the IC table followed
    by the curves. *)
Theorem sheet_2x3_panel_order `{Analytics}
    (w : World) (df_pl : df_ref) (d : DataFrame)
    (factor forward_return fwd_ret_1 : string) (periods : list Z)
    (factor_quantile : string) (figsize : Z * Z) (axvlines : list string)
    (t_ic : DataFrame) (col : string) (curves : list DataFrame) :
  tables w !! df_pl = Some d ->
  ic_of d [factor] [forward_return] = inr t_ic ->
  map fst t_ic !! 1 = Some col ->
  Forall2 (fun p t => cum_return_by_quantile_of d fwd_ret_1 p factor_quantile = inr t)
          periods curves ->
  exists F,
    create_2x3_sheet df_pl factor forward_return fwd_ret_1 periods
                     factor_quantile figsize axvlines w
    = (inr PyNone, ext w (t_ic :: curves) [F]) /\
    fig_tight F = true /\
    fig_axes F !! 0 = Some [IcTs t_ic col axvlines] /\
    fig_axes F !! 1 = Some [Hist t_ic col] /\
    fig_axes F !! 2 = Some [IcHeatmapMonthly t_ic col] /\
    (forall k p t, periods !! k = Some p -> curves !! k = Some t ->
       fig_axes F !! (3 + k) = Some [QuantilePortfolio t fwd_ret_1 p axvlines]).
Proof.
  intros Hdf Hic Hcol Hall.
  pose proof (create_2x3_sheet_run w df_pl d factor forward_return fwd_ret_1
                periods factor_quantile figsize axvlines t_ic col curves
                Hdf Hic Hcol Hall) as Hrun.
  cbv zeta in Hrun.
  eexists. split; [exact Hrun |].
  split; [reflexivity |]. split; [reflexivity |]. split; [reflexivity |].
  split; [reflexivity |].
  intros k p t Hp Ht. cbn [fig_axes app lookup list_lookup Nat.add].
  change (list_lookup k) with (lookup (M := list Axes) k).
  apply lookup_app_l_Some. unfold curve_panels.
  rewrite lookup_zip_with, Hp, Ht. reflexivity.
Qed.

(** ** The 2x2 and 3x2 sheets in full *)

Lemma get_column_err w (r : df_ref) t name :
  tables w !! r = Some t -> assoc name t = None ->
  get_column r name w = (inl (ColumnNotFoundError name), w).
Proof.
  intros Hr Hs. unfold get_column.
  rewrite (bind_run _ _ _ _ _ (load_run _ _ _ Hr)). by rewrite Hs.
Qed.


(** X5. A successful 2x2 build fills its four slots, in row-major order,
    with the IC time series, the IC monthly heatmap, the histogram of the
    factor column of the caller's own table (not of the IC series) and
    the cumulative-return curve; only the first and the last receive the
    reference lines; the IC table and the curve are the two tables
    allocated, and the figure gets its final layout pass. *)
Theorem sheet_2x2_layout `{Analytics}
    (w : World) (df_pl : df_ref) (d : DataFrame)
    (factor forward_return fwd_ret_1 : string) (period : Z)
    (factor_quantile : string) (figsize : Z * Z) (axvlines : list string)
    (t_ic : DataFrame) (col : string) (t_cum : DataFrame) :
  tables w !! df_pl = Some d ->
  ic_of d [factor] [forward_return] = inr t_ic ->
  map fst t_ic !! 1 = Some col ->
  cum_return_by_quantile_of d fwd_ret_1 period factor_quantile = inr t_cum ->
  create_2x2_sheet df_pl factor forward_return fwd_ret_1 period factor_quantile
                   figsize axvlines w
  = (inr PyNone,
     ext w [t_ic; t_cum]
         [mkFigure 2 2 figsize
            [[IcTs t_ic col axvlines];
             [IcHeatmapMonthly t_ic col];
             [Hist d factor];
             [QuantilePortfolio t_cum fwd_ret_1 period axvlines]] true]).
Proof. intros. by eapply create_2x2_sheet_run. Qed.

(** X6. A successful 3x2 build fills its six slots, in row-major order,
    with the IC time series, the histogram of the IC column, the IC
    monthly heatmap, the cumulative-return curve, the factor
    autocorrelation over all [periods] and the turnover of one quantile;
    the tables allocated are, in order, the IC table, the curve, the
    autocorrelation table and the turnover table. *)
Theorem sheet_3x2_layout `{Analytics}
    (w : World) (df_pl : df_ref) (d : DataFrame)
    (factor forward_return fwd_ret_1 : string) (period : Z)
    (factor_quantile : string) (periods : list Z) (figsize : Z * Z)
    (axvlines : list string)
    (t_ic : DataFrame) (col : string) (t_cum t_ac t_to : DataFrame) (qs : Series) :
  tables w !! df_pl = Some d ->
  ic_of d [factor] [forward_return] = inr t_ic ->
  map fst t_ic !! 1 = Some col ->
  cum_return_by_quantile_of d fwd_ret_1 period factor_quantile = inr t_cum ->
  auto_correlation_of d factor periods = inr t_ac ->
  quantile_turnover_of d periods factor_quantile = inr t_to ->
  assoc factor_quantile t_to = Some qs ->
  create_3x2_sheet df_pl factor forward_return fwd_ret_1 period factor_quantile
                   periods figsize axvlines w
  = (inr PyNone,
     ext w [t_ic; t_cum; t_ac; t_to]
         [mkFigure 3 2 figsize
            [[IcTs t_ic col axvlines];
             [Hist t_ic col];
             [IcHeatmapMonthly t_ic col];
             [QuantilePortfolio t_cum fwd_ret_1 period axvlines];
             [FactorAutoCorrelation t_ac axvlines];
             [TurnoverQuantile t_to (series_max qs) factor_quantile periods
                               axvlines]] true]).
Proof. intros. by eapply create_3x2_sheet_run. Qed.


Section Sheet3x2Failure.
Context `{Analytics}.

Lemma create_3x2_sheet_missing_column w (df_pl : df_ref) d factor forward_return
    fwd_ret_1 period fq periods figsize axvlines t_ic col t_cum t_ac t_to :
  tables w !! df_pl = Some d ->
  ic_of d [factor] [forward_return] = inr t_ic ->
  map fst t_ic !! 1 = Some col ->
  cum_return_by_quantile_of d fwd_ret_1 period fq = inr t_cum ->
  auto_correlation_of d factor periods = inr t_ac ->
  quantile_turnover_of d periods fq = inr t_to ->
  assoc fq t_to = None ->
  create_3x2_sheet df_pl factor forward_return fwd_ret_1 period fq periods
                   figsize axvlines w
  = (inl (ColumnNotFoundError fq),
     ext w [t_ic; t_cum; t_ac; t_to]
         [mkFigure 3 2 figsize
            [[IcTs t_ic col axvlines];
             [Hist t_ic col];
             [IcHeatmapMonthly t_ic col];
             [QuantilePortfolio t_cum fwd_ret_1 period axvlines];
             [FactorAutoCorrelation t_ac axvlines];
             blank_axes] false]).
Proof.
  intros Hdf Hic Hcol Hcum Hac Hto Hqs. unfold create_3x2_sheet.
  rewrite <- (ext_nil w) at 1.
  run_with ltac:(by apply plt_subplots_ext).
  cbn [fst snd length app].
  run_with ltac:(eapply (adapter_run (fun t => ic_of t [factor] [forward_return]));
                 eassumption).
  run_with ltac:(apply columns_run, (ext_lookup_new _ _ _ 0); reflexivity).
  run_with ltac:(by apply getitem_run).
  run_with ltac:(eapply getitem2_run; reflexivity).
  run_with ltac:(eapply (renderer_run (fun t => IcTs t col axvlines)
                                      (fun t => ic_summary t col));
                 [apply (ext_lookup_new _ _ _ 0) | |]; reflexivity).
  run_with ltac:(eapply getitem2_run; reflexivity).
  run_with ltac:(eapply (renderer_run (fun t => Hist t col)
                                      (fun t => hist_summary t col));
                 [apply (ext_lookup_new _ _ _ 0) | |]; reflexivity).
  run_with ltac:(eapply getitem2_run; reflexivity).
  run_with ltac:(eapply (renderer_unit_run (fun t => IcHeatmapMonthly t col));
                 [apply (ext_lookup_new _ _ _ 0) | |]; reflexivity).
  run_with ltac:(eapply (adapter_run
                           (fun t => cum_return_by_quantile_of t fwd_ret_1 period fq));
                 eassumption).
  run_with ltac:(eapply getitem2_run; reflexivity).
  run_with ltac:(eapply (renderer_unit_run
                           (fun t => QuantilePortfolio t fwd_ret_1 period axvlines));
                 [apply (ext_lookup_new _ _ _ 1) | |]; reflexivity).
  run_with ltac:(eapply (adapter_run (fun t => auto_correlation_of t factor periods));
                 eassumption).
  run_with ltac:(eapply (adapter_run (fun t => quantile_turnover_of t periods fq));
                 eassumption).
  run_with ltac:(eapply getitem2_run; reflexivity).
  run_with ltac:(eapply (renderer_unit_run
                           (fun t => FactorAutoCorrelation t axvlines));
                 [apply (ext_lookup_new _ _ _ 2) | |]; reflexivity).
  fail_with ltac:(eapply get_column_err;
                  [apply (ext_lookup_new _ _ _ 3); reflexivity | eassumption]).
  reflexivity.
Qed.

End Sheet3x2Failure.

(** X8. When the turnover table lacks the quantile column, the 3x2
    builder raises [ColumnNotFoundError] for that name after five of its
    six panels are drawn: the last slot stays blank and the figure is
    left registered without its final layout pass. *)
Theorem sheet_3x2_missing_quantile_column `{Analytics}
    (w : World) (df_pl : df_ref) (d : DataFrame)
    (factor forward_return fwd_ret_1 : string) (period : Z)
    (factor_quantile : string) (periods : list Z) (figsize : Z * Z)
    (axvlines : list string)
    (t_ic : DataFrame) (col : string) (t_cum t_ac t_to : DataFrame) :
  tables w !! df_pl = Some d ->
  ic_of d [factor] [forward_return] = inr t_ic ->
  map fst t_ic !! 1 = Some col ->
  cum_return_by_quantile_of d fwd_ret_1 period factor_quantile = inr t_cum ->
  auto_correlation_of d factor periods = inr t_ac ->
  quantile_turnover_of d periods factor_quantile = inr t_to ->
  assoc factor_quantile t_to = None ->
  exists F,
    create_3x2_sheet df_pl factor forward_return fwd_ret_1 period factor_quantile
                     periods figsize axvlines w
    = (inl (ColumnNotFoundError factor_quantile),
       ext w [t_ic; t_cum; t_ac; t_to] [F]) /\
    drawn_panels F = 5 /\
    fig_axes F !! 5 = Some blank_axes /\
    fig_tight F = false.
Proof.
  intros Hdf Hic Hcol Hcum Hac Hto Hqs.
  eexists. split.
  { eapply create_3x2_sheet_missing_column; eassumption. }
  repeat split; reflexivity.
Qed.

(** ** The environment bindings of the notebook export *)





Lemma upper_changes_parameter_names :
  Forall (fun p => upper p <> p) ipynb_to_html_parameters.
Proof. repeat constructor; discriminate. Qed.

(** X10. No environment name bound by the notebook export is the name of
    one of its own parameters: the names are upper-cased and every
    parameter name has a lower-case letter (the docstring's reason for
    upper-casing). *)
Theorem env_bindings_avoid_parameter_names (kwargs : list (string * pyvalue))
    (K V : string) :
  In (K, V) (env_bindings kwargs) -> ~ In K ipynb_to_html_parameters.
Proof.
  intros HKV Hin. destruct (env_bindings_sound kwargs K V HKV) as [Hup _].
  pose proof upper_changes_parameter_names as Hall.
  rewrite Forall_forall in Hall. apply list_elem_of_In in Hin.
  by apply (Hall K Hin).
Qed.

(** X11. For a valid template the export prints exactly one line,
    [system:] followed by the very command line it hands to the shell,
    whatever status that command ends with. *)
Theorem printed_line_is_the_command_run `{Platform}
    (template : string) (output : option string)
    (no_input no_prompt execute : bool) (timeout : Z) (open_browser : bool)
    (kwargs : list (string * pyvalue)) (w : World) :
  endswith (path_absolute template) ".ipynb" = true ->
  let w' := (ipynb_to_html template output no_input no_prompt execute timeout
                           open_browser kwargs w).2 in
  exists commands rest,
    stdout w' = stdout w ++ ["system: " +:+ commands] /\
    spawned w' = spawned w ++ commands :: rest.
Proof.
  intros Hv w'. subst w'. rewrite ipynb_to_html_valid by done.
  cbn [snd stdout spawned]. eauto.
Qed.

Lemma replace_first_is_last (old new stem : string) :
  old <> EmptyString ->
  str_find old (stem +:+ old) = Some (String.length stem) ->
  replace old new (stem +:+ old) = stem +:+ new.
Proof.
  intros Hold. unfold replace.
  induction stem as [| c stem IH]; intros Hfind.
  - change (EmptyString +:+ old) with old. change (EmptyString +:+ new) with new.
    destruct old as [| c old]; [done |].
    cbn [replace_from]. rewrite prefix_refl.
    cbn [String.length Nat.sub]. rewrite Nat.sub_0_r.
    by rewrite replace_from_skip_all, append_empty_r.
  - change (String c stem +:+ old) with (String c (stem +:+ old)) in *.
    change (String c stem +:+ new) with (String c (stem +:+ new)).
    cbn [replace_from]. cbn [str_find String.length] in Hfind.
    destruct (String.prefix old (String c (stem +:+ old))); [discriminate |].
    f_equal. apply IH.
    destruct (str_find old (stem +:+ old)) as [i |]; [| discriminate].
    cbn in Hfind. congruence.
Qed.

(** X12. Where the first [.ipynb] of the absolute template path is its
    final extension, leaving the output out converts into the path with
    that extension changed to [.html] and the rest unchanged. *)
Theorem default_output_changes_the_extension `{Platform}
    (template stem : string)
    (no_input no_prompt execute : bool) (timeout : Z) (open_browser : bool)
    (kwargs : list (string * pyvalue)) (w : World) :
  path_absolute template = stem +:+ ".ipynb" ->
  str_find ".ipynb" (stem +:+ ".ipynb") = Some (String.length stem) ->
  let w' := (ipynb_to_html template None no_input no_prompt execute timeout
                           open_browser kwargs w).2 in
  exists rest,
    spawned w'
    = spawned w ++
        join "&&"
          (map shell_line (env_bindings kwargs) ++
             [nbconvert_command (stem +:+ ".ipynb")
                (path_absolute (stem +:+ ".html"))
                (if no_input then "--no-input" else EmptyString)
                (if no_prompt then "--no-prompt" else EmptyString)
                (if execute then "--execute" else EmptyString) timeout])
        :: rest.
Proof.
  intros Habs Hfind w'. subst w'.
  assert (Hv : endswith (path_absolute template) ".ipynb" = true).
  { apply endswith_spec. eauto. }
  rewrite ipynb_to_html_valid by done. cbn [snd spawned].
  unfold composite_command, resolved_output.
  rewrite Habs, replace_first_is_last by done.
  eauto.
Qed.

(** ** The image embedding beyond the happy path *)

Section EmbedMore.
Context `{Platform}.

Lemma fig_to_img_backend_error (fig : fig_ref) (format : option string) w F e :
  figures w !! fig = Some F ->
  savefig_bytes F (default "png" format) = inl e ->
  fig_to_img fig format w = (inl e, set_buffers w (buffers w ++ [[]])).
Proof.
  intros HF He. unfold fig_to_img.
  unfold bind at 1. unfold io_BytesIO at 1.
  unfold bind at 1. unfold savefig at 1.
  cbn [figures set_buffers buffers]. by rewrite HF, He.
Qed.

End EmbedMore.

(** X13. When the rendering backend refuses the figure or the format,
    the embedding raises the backend's exception unchanged and returns no
    markup; all it leaves behind is the empty in-memory buffer it had
    opened: no file, no process, no change to the figures. *)
Theorem fig_to_img_propagates_backend_error `{Platform}
    (fig : fig_ref) (format : option string) (w : World) (F : Figure) (e : exn) :
  figures w !! fig = Some F ->
  savefig_bytes F (default "png" format) = inl e ->
  exists w',
    fig_to_img fig format w = (inl e, w') /\
    buffers w' = buffers w ++ [[]] /\
    files w' = files w /\ spawned w' = spawned w /\
    figures w' = figures w /\ environ w' = environ w.
Proof.
  intros HF He. eexists. split.
  - by apply (fig_to_img_backend_error fig format w F e).
  - repeat split; reflexivity.
Qed.


Lemma count_char_app c (a b : string) :
  count_char c (a +:+ b) = count_char c a + count_char c b.
Proof.
  induction a as [| c' a IH]; [reflexivity |].
  change (String c' a +:+ b) with (String c' (a +:+ b)).
  cbn [count_char]. rewrite IH. lia.
Qed.

Lemma b64_char_not_dquote n : Ascii.eqb dquote_char (b64_char n) = false.
Proof.
  destruct (N.ltb_spec n 64) as [Hn | Hn].
  - apply (forallb_below (fun n => negb (Ascii.eqb dquote_char (b64_char n)))
             64 ltac:(vm_compute; reflexivity)) in Hn.
    by apply negb_true_iff in Hn.
  - unfold b64_char.
    assert (Hget : String.get (N.to_nat n) b64_alphabet = None).
    { assert (Hge : forall k s, String.length s <= k -> String.get k s = None).
      { intros k s. revert k. induction s as [| c s IH]; intros k Hk.
        - by destruct k.
        - destruct k as [| k]; cbn in Hk; [lia |]. cbn. apply IH. lia. }
      apply Hge. change (String.length b64_alphabet) with 64. lia. }
    by rewrite Hget.
Qed.

Lemma b64encode_no_dquote (bs : list Byte.byte) :
  count_char dquote_char (b64encode bs) = 0.
Proof.
  assert (Hgen : forall n bs, length bs <= n ->
            count_char dquote_char (b64encode bs) = 0).
  { clear bs. induction n as [| n IH]; intros bs Hlen.
    - destruct bs; [reflexivity | cbn in Hlen; lia].
    - destruct bs as [| a [| b [| c rest]]]; [reflexivity | | |];
        cbn [b64encode count_char]; rewrite ?b64_char_not_dquote;
        try reflexivity.
      rewrite IH by (cbn in Hlen; lia). reflexivity. }
  apply (Hgen (length bs)). lia.
Qed.

(** X15. The markup the embedding returns is well delimited: when the
    format holds no double quote, the result holds exactly the two
    double quotes around the [src] value, since base64 text never holds
    one. *)
Theorem fig_to_img_markup_has_two_quotes `{Platform}
    (fig : fig_ref) (format : option string) (w : World)
    (F : Figure) (bs : list Byte.byte) :
  figures w !! fig = Some F ->
  savefig_bytes F (default "png" format) = inr bs ->
  count_char dquote_char (default "png" format) = 0 ->
  exists markup,
    (fig_to_img fig format w).1 = inr markup /\
    count_char dquote_char markup = 2.
Proof.
  intros HF Hbs Hfmt. eexists. split.
  - rewrite (fig_to_img_run fig format w F bs HF Hbs). reflexivity.
  - rewrite !count_char_app, Hfmt, b64encode_no_dquote. reflexivity.
Qed.

(** ** A cumulative-return failure in the fixed layouts *)

(** X16. When the cumulative-return adapter fails, the builders with a
    fixed layout raise its exception with the panels drawn so far left on
    the registered figure: three in the 2x2 sheet (the curve is its last
    panel), one in the 1x3 sheet (the curve is its second panel), three in
    the 3x2 sheet; no curve table is allocated. *)
Theorem cum_return_failure_leaves_partial_sheet `{Analytics}
    (w : World) (df_pl : df_ref) (d : DataFrame)
    (factor forward_return fwd_ret_1 factor_quantile : string)
    (period : Z) (periods : list Z) (figsize : Z * Z) (axvlines : list string)
    (t_ic : DataFrame) (col : string) (e : exn) :
  tables w !! df_pl = Some d ->
  ic_of d [factor] [forward_return] = inr t_ic ->
  map fst t_ic !! 1 = Some col ->
  cum_return_by_quantile_of d fwd_ret_1 period factor_quantile = inl e ->
  create_2x2_sheet df_pl factor forward_return fwd_ret_1 period factor_quantile
                   figsize axvlines w
  = (inl e,
     ext w [t_ic]
         [mkFigure 2 2 figsize
            [[IcTs t_ic col axvlines]; [IcHeatmapMonthly t_ic col];
             [Hist d factor]; blank_axes] false]) /\
  create_1x3_sheet df_pl factor forward_return fwd_ret_1 period factor_quantile
                   figsize axvlines w
  = (inl e,
     ext w [t_ic]
         [mkFigure 1 3 figsize
            [[IcTs t_ic col axvlines]; blank_axes; blank_axes] false]) /\
  create_3x2_sheet df_pl factor forward_return fwd_ret_1 period factor_quantile
                   periods figsize axvlines w
  = (inl e,
     ext w [t_ic]
         [mkFigure 3 2 figsize
            [[IcTs t_ic col axvlines]; [Hist t_ic col];
             [IcHeatmapMonthly t_ic col]; blank_axes; blank_axes; blank_axes]
            false]).
Proof.
  intros Hdf Hic Hcol Hcum. split; [| split].
  - unfold create_2x2_sheet. rewrite <- (ext_nil w) at 1.
    run_with ltac:(by apply plt_subplots_ext).
    cbn [fst snd length app].
    run_with ltac:(eapply (adapter_run (fun t => ic_of t [factor] [forward_return]));
                   eassumption).
    run_with ltac:(apply columns_run, (ext_lookup_new _ _ _ 0); reflexivity).
    run_with ltac:(by apply getitem_run).
    run_with ltac:(by apply getitem_run).
    run_with ltac:(eapply (renderer_run (fun t => IcTs t col axvlines)
                                        (fun t => ic_summary t col));
                   [apply (ext_lookup_new _ _ _ 0) | |]; reflexivity).
    run_with ltac:(by apply getitem_run).
    run_with ltac:(eapply (renderer_unit_run (fun t => IcHeatmapMonthly t col));
                   [apply (ext_lookup_new _ _ _ 0) | |]; reflexivity).
    run_with ltac:(by apply getitem_run).
    run_with ltac:(eapply (renderer_run (fun t => Hist t factor)
                                        (fun t => hist_summary t factor));
                   [apply ext_lookup_old; eassumption | |]; reflexivity).
    fail_with ltac:(eapply (adapter_err
                              (fun t => cum_return_by_quantile_of t fwd_ret_1 period
                                          factor_quantile));
                    [apply ext_lookup_old |]; eassumption).
    reflexivity.
  - unfold create_1x3_sheet. rewrite <- (ext_nil w) at 1.
    run_with ltac:(by apply plt_subplots_ext).
    cbn [fst snd length app].
    run_with ltac:(eapply (adapter_run (fun t => ic_of t [factor] [forward_return]));
                   eassumption).
    run_with ltac:(apply columns_run, (ext_lookup_new _ _ _ 0); reflexivity).
    run_with ltac:(by apply getitem_run).
    run_with ltac:(by apply getitem_run).
    run_with ltac:(eapply (renderer_run (fun t => IcTs t col axvlines)
                                        (fun t => ic_summary t col));
                   [apply (ext_lookup_new _ _ _ 0) | |]; reflexivity).
    fail_with ltac:(eapply (adapter_err
                              (fun t => cum_return_by_quantile_of t fwd_ret_1 period
                                          factor_quantile));
                    [apply ext_lookup_old |]; eassumption).
    reflexivity.
  - unfold create_3x2_sheet. rewrite <- (ext_nil w) at 1.
    run_with ltac:(by apply plt_subplots_ext).
    cbn [fst snd length app].
    run_with ltac:(eapply (adapter_run (fun t => ic_of t [factor] [forward_return]));
                   eassumption).
    run_with ltac:(apply columns_run, (ext_lookup_new _ _ _ 0); reflexivity).
    run_with ltac:(by apply getitem_run).
    run_with ltac:(eapply getitem2_run; reflexivity).
    run_with ltac:(eapply (renderer_run (fun t => IcTs t col axvlines)
                                        (fun t => ic_summary t col));
                   [apply (ext_lookup_new _ _ _ 0) | |]; reflexivity).
    run_with ltac:(eapply getitem2_run; reflexivity).
    run_with ltac:(eapply (renderer_run (fun t => Hist t col)
                                        (fun t => hist_summary t col));
                   [apply (ext_lookup_new _ _ _ 0) | |]; reflexivity).
    run_with ltac:(eapply getitem2_run; reflexivity).
    run_with ltac:(eapply (renderer_unit_run (fun t => IcHeatmapMonthly t col));
                   [apply (ext_lookup_new _ _ _ 0) | |]; reflexivity).
    fail_with ltac:(eapply (adapter_err
                              (fun t => cum_return_by_quantile_of t fwd_ret_1 period
                                          factor_quantile));
                    [apply ext_lookup_old |]; eassumption).
    reflexivity.
Qed.

(** ** The size of the embedded image *)

Lemma b64encode_length (bs : list Byte.byte) :
  String.length (b64encode bs) = 4 * ((length bs + 2) / 3).
Proof.
  assert (Hgen : forall n bs, length bs <= n ->
            String.length (b64encode bs) = 4 * ((length bs + 2) / 3)).
  { clear bs. induction n as [| n IH]; intros bs Hlen.
    - destruct bs; [reflexivity | cbn in Hlen; lia].
    - destruct bs as [| a [| b [| c rest]]]; [reflexivity | reflexivity | reflexivity |].
      cbn [b64encode String.length length].
      rewrite IH by (cbn in Hlen; lia).
      replace (S (S (S (length rest))) + 2) with (1 * 3 + (length rest + 2)) by lia.
      rewrite Nat.div_add_l by lia. lia. }
  apply (Hgen (length bs)). lia.
Qed.

(** X17. The markup grows with the image by the base64 factor: its
    length is 33 fixed characters, the format's name, and four characters
    for every three bytes of the image, the last group rounded up. *)
Theorem fig_to_img_markup_length `{Platform}
    (fig : fig_ref) (format : option string) (w : World)
    (F : Figure) (bs : list Byte.byte) :
  figures w !! fig = Some F ->
  savefig_bytes F (default "png" format) = inr bs ->
  exists markup,
    (fig_to_img fig format w).1 = inr markup /\
    String.length markup
    = 33 + String.length (default "png" format) + 4 * ((length bs + 2) / 3).
Proof.
  intros HF Hbs. eexists. split.
  - rewrite (fig_to_img_run fig format w F bs HF Hbs). reflexivity.
  - rewrite !append_length, b64encode_length. cbn [String.length dquote]. lia.
Qed.

(** ** These properties on the demonstration data *)

(** A factor column the table does not have. *)
Lemma ic_failure_witness :
  tables demo_world !! 0 = Some demo_table /\
  @ic_of demo_analytics demo_table ["beta"] ["ret_5"]
  = inl (ColumnNotFoundError "beta") /\
  @create_2x2_sheet demo_analytics 0 "beta" "ret_5" "ret_1" 5 "factor_quantile"
                    default_figsize_2x2 [] demo_world
  = (inl (ColumnNotFoundError "beta"),
     ext demo_world [] [new_figure 2 2 default_figsize_2x2]).
Proof.
  split; [reflexivity |]. split; [reflexivity |].
  apply (@ic_failure_leaves_blank_figure demo_analytics demo_world 0 demo_table
           "beta" "ret_5" "ret_1" "factor_quantile" 5 default_periods_2x3
           default_figsize_2x2 [] (ColumnNotFoundError "beta"));
    reflexivity.
Defined.

Lemma narrow_ic_table_witness :
  tables demo_world !! 0 = Some demo_table /\
  @ic_of narrow_analytics demo_table ["alpha"] ["ret_5"]
  = inr [("date", [Some 1; Some 1; Some 2; Some 2; Some 3]%Z)] /\
  (@create_1x3_sheet narrow_analytics 0 "alpha" "ret_5" "ret_1" 5
                     "factor_quantile" default_figsize_1x3 [] demo_world).1
  = inl IndexError.
Proof.
  split; [reflexivity |]. split; [reflexivity |].
  destruct (@narrow_ic_table_raises_index_error narrow_analytics demo_world 0
              demo_table "alpha" "ret_5" "ret_1" "factor_quantile" 5
              default_periods_2x3 default_figsize_1x3 []
              [("date", [Some 1; Some 1; Some 2; Some 2; Some 3]%Z)]
              eq_refl eq_refl ltac:(cbn; lia)) as (_ & H1x3 & _).
  rewrite H1x3. reflexivity.
Defined.

(** Periods 2, 0, 5: the second is refused, the third never tried. *)
Lemma sheet_2x3_failing_period_witness :
  tables demo_world !! 0 = Some demo_table /\
  @cum_return_by_quantile_of demo_analytics demo_table "ret_1" 0 "factor_quantile"
  = inl (AnalyticsError "period must be positive") /\
  exists F,
    @create_2x3_sheet demo_analytics 0 "alpha" "ret_5" "ret_1" ([2] ++ 0 :: [5])%Z
                      "factor_quantile" default_figsize_2x3 [] demo_world
    = (inl (AnalyticsError "period must be positive"),
       ext demo_world [demo_ic_table; demo_curve 2] [F]) /\
    drawn_panels F = 3 + 1 /\
    fig_tight F = false /\
    length (fig_axes F) = 2 * 3.
Proof.
  split; [reflexivity |]. split; [reflexivity |].
  apply (@sheet_2x3_stops_at_failing_period demo_analytics demo_world 0
           demo_table "alpha" "ret_5" "ret_1" "factor_quantile"
           default_figsize_2x3 [] demo_ic_table "alpha__ret_5" [2]%Z 0%Z [5]%Z
           [demo_curve 2] (AnalyticsError "period must be positive"));
    try reflexivity.
  repeat constructor.
Defined.

Lemma sheet_2x3_panel_order_witness :
  tables demo_world !! 0 = Some demo_table /\
  exists F,
    @create_2x3_sheet demo_analytics 0 "alpha" "ret_5" "ret_1" [5; 2; 5]%Z
                      "factor_quantile" default_figsize_2x3 ["2020-01-02"]
                      demo_world
    = (inr PyNone,
       ext demo_world [demo_ic_table; demo_curve 5; demo_curve 2; demo_curve 5]
           [F]) /\
    fig_axes F !! 5
    = Some [QuantilePortfolio (demo_curve 5) "ret_1" 5 ["2020-01-02"]].
Proof.
  split; [reflexivity |].
  destruct (@sheet_2x3_panel_order demo_analytics demo_world 0 demo_table
              "alpha" "ret_5" "ret_1" [5; 2; 5]%Z "factor_quantile"
              default_figsize_2x3 ["2020-01-02"] demo_ic_table "alpha__ret_5"
              [demo_curve 5; demo_curve 2; demo_curve 5]
              eq_refl eq_refl eq_refl ltac:(repeat constructor))
    as (F & Hrun & _ & _ & _ & _ & Hk).
  exists F. split; [exact Hrun |].
  apply (Hk 2 5%Z (demo_curve 5)); reflexivity.
Defined.

Lemma sheet_2x2_layout_witness :
  tables demo_world !! 0 = Some demo_table /\
  @create_2x2_sheet demo_analytics 0 "alpha" "ret_5" "ret_1" default_period
                    "factor_quantile" default_figsize_2x2 ["2020-01-02"] demo_world
  = (inr PyNone,
     ext demo_world [demo_ic_table; demo_curve 5]
         [mkFigure 2 2 default_figsize_2x2
            [[IcTs demo_ic_table "alpha__ret_5" ["2020-01-02"]];
             [IcHeatmapMonthly demo_ic_table "alpha__ret_5"];
             [Hist demo_table "alpha"];
             [QuantilePortfolio (demo_curve 5) "ret_1" 5 ["2020-01-02"]]] true]).
Proof.
  split; [reflexivity |].
  apply (@sheet_2x2_layout demo_analytics demo_world 0 demo_table
           "alpha" "ret_5" "ret_1" default_period "factor_quantile"
           default_figsize_2x2 ["2020-01-02"] demo_ic_table "alpha__ret_5"
           (demo_curve 5));
    reflexivity.
Defined.

Lemma sheet_3x2_layout_witness :
  tables demo_world !! 0 = Some demo_table /\
  (@create_3x2_sheet demo_analytics 0 "alpha" "ret_5" "ret_1" default_period
                     "factor_quantile" [1; 5]%Z default_figsize_3x2 [] demo_world).1
  = inr PyNone.
Proof.
  split; [reflexivity |].
  rewrite (@sheet_3x2_layout demo_analytics demo_world 0 demo_table
             "alpha" "ret_5" "ret_1" default_period "factor_quantile" [1; 5]%Z
             default_figsize_3x2 [] demo_ic_table "alpha__ret_5" (demo_curve 5)
             demo_ac_table demo_turnover_table
             [Some 3; Some 5; Some 1; Some 4; Some 2]%Z
             eq_refl eq_refl eq_refl eq_refl eq_refl eq_refl eq_refl).
  reflexivity.
Defined.


Lemma sheet_3x2_missing_column_witness :
  tables demo_world !! 0 = Some demo_table /\
  assoc "factor_quantile" [("date", [Some 1; Some 1; Some 2; Some 2; Some 3]%Z)]
  = None /\
  exists F,
    @create_3x2_sheet unlabelled_analytics 0 "alpha" "ret_5" "ret_1" 5
                      "factor_quantile" [1; 5]%Z default_figsize_3x2 [] demo_world
    = (inl (ColumnNotFoundError "factor_quantile"),
       ext demo_world
           [demo_ic_table; demo_curve 5; demo_ac_table;
            [("date", [Some 1; Some 1; Some 2; Some 2; Some 3]%Z)]] [F]) /\
    drawn_panels F = 5 /\
    fig_axes F !! 5 = Some blank_axes /\
    fig_tight F = false.
Proof.
  split; [reflexivity |]. split; [reflexivity |].
  apply (@sheet_3x2_missing_quantile_column unlabelled_analytics demo_world 0
           demo_table "alpha" "ret_5" "ret_1" 5 "factor_quantile" [1; 5]%Z
           default_figsize_3x2 [] demo_ic_table "alpha__ret_5" (demo_curve 5)
           demo_ac_table [("date", [Some 1; Some 1; Some 2; Some 2; Some 3]%Z)]);
    reflexivity.
Defined.

(** A keyword spelled like a parameter but for its case. *)
Lemma env_bindings_parameter_names_witness :
  In ("TIMEOUT", "3") (env_bindings [("Timeout", VInt 3)]) /\
  ~ In "TIMEOUT" ipynb_to_html_parameters.
Proof.
  assert (Hin : In ("TIMEOUT", "3") (env_bindings [("Timeout", VInt 3)]))
    by (left; reflexivity).
  split; [exact Hin |].
  exact (env_bindings_avoid_parameter_names [("Timeout", VInt 3)] "TIMEOUT" "3" Hin).
Defined.

Lemma printed_line_witness :
  endswith (@path_absolute failing_platform "nb/demo.ipynb") ".ipynb" = true /\
  exists commands rest,
    stdout (@ipynb_to_html failing_platform "nb/demo.ipynb" None false false true
                           120 true [("seed", VInt 7)] empty_world).2
    = stdout empty_world ++ ["system: " +:+ commands] /\
    spawned (@ipynb_to_html failing_platform "nb/demo.ipynb" None false false true
                            120 true [("seed", VInt 7)] empty_world).2
    = spawned empty_world ++ commands :: rest.
Proof.
  split; [reflexivity |].
  apply (@printed_line_is_the_command_run failing_platform "nb/demo.ipynb" None
           false false true 120 true [("seed", VInt 7)] empty_world).
  reflexivity.
Defined.

Lemma default_output_extension_witness :
  @path_absolute demo_platform "nb/demo.ipynb"
  = "/home/quant/nb/demo" +:+ ".ipynb" /\
  str_find ".ipynb" ("/home/quant/nb/demo" +:+ ".ipynb")
  = Some (String.length "/home/quant/nb/demo") /\
  exists rest,
    spawned (@ipynb_to_html demo_platform "nb/demo.ipynb" None false false true
                            120 false [] empty_world).2
    = spawned empty_world ++
        join "&&"
          (map (@shell_line demo_platform) (env_bindings []) ++
             [nbconvert_command ("/home/quant/nb/demo" +:+ ".ipynb")
                (@path_absolute demo_platform ("/home/quant/nb/demo" +:+ ".html"))
                EmptyString EmptyString "--execute" 120])
        :: rest.
Proof.
  split; [reflexivity |]. split; [reflexivity |].
  apply (@default_output_changes_the_extension demo_platform "nb/demo.ipynb"
           "/home/quant/nb/demo" false false true 120 false [] empty_world);
    reflexivity.
Defined.

(** A format the demonstration backend does not know. *)
Lemma fig_to_img_backend_error_witness :
  figures demo_figure_world !! 0 = Some (new_figure 1 1 (4, 3)%Z) /\
  @savefig_bytes demo_platform (new_figure 1 1 (4, 3)%Z) "bmp"
  = inl (ValueError "unsupported format") /\
  exists w',
    @fig_to_img demo_platform 0 (Some "bmp") demo_figure_world
    = (inl (ValueError "unsupported format"), w') /\
    buffers w' = buffers demo_figure_world ++ [[]] /\
    files w' = files demo_figure_world /\
    spawned w' = spawned demo_figure_world /\
    figures w' = figures demo_figure_world /\
    environ w' = environ demo_figure_world.
Proof.
  split; [reflexivity |]. split; [reflexivity |].
  apply (@fig_to_img_propagates_backend_error demo_platform 0 (Some "bmp")
           demo_figure_world (new_figure 1 1 (4, 3)%Z)
           (ValueError "unsupported format"));
    reflexivity.
Defined.


Lemma fig_to_img_two_quotes_witness :
  count_char dquote_char "png" = 0 /\
  exists markup,
    (@fig_to_img demo_platform 0 None demo_figure_world).1 = inr markup /\
    count_char dquote_char markup = 2.
Proof.
  split; [reflexivity |].
  apply (@fig_to_img_markup_has_two_quotes demo_platform 0 None demo_figure_world
           (new_figure 1 1 (4, 3)%Z) (bytes_of_string "png:0"));
    reflexivity.
Defined.

Lemma fig_to_img_length_witness :
  @savefig_bytes demo_platform (new_figure 1 1 (4, 3)%Z) "png"
  = inr (bytes_of_string "png:0") /\
  exists markup,
    (@fig_to_img demo_platform 0 None demo_figure_world).1 = inr markup /\
    String.length markup = 33 + 3 + 4 * 2.
Proof.
  split; [reflexivity |].
  apply (@fig_to_img_markup_length demo_platform 0 None demo_figure_world
           (new_figure 1 1 (4, 3)%Z) (bytes_of_string "png:0"));
    reflexivity.
Defined.

Lemma cum_return_failure_witness :
  tables demo_world !! 0 = Some demo_table /\
  @cum_return_by_quantile_of demo_analytics demo_table "ret_1" (-5)
                             "factor_quantile"
  = inl (AnalyticsError "period must be positive") /\
  @create_1x3_sheet demo_analytics 0 "alpha" "ret_5" "ret_1" (-5) "factor_quantile"
                    default_figsize_1x3 [] demo_world
  = (inl (AnalyticsError "period must be positive"),
     ext demo_world [demo_ic_table]
         [mkFigure 1 3 default_figsize_1x3
            [[IcTs demo_ic_table "alpha__ret_5" []]; blank_axes; blank_axes]
            false]).
Proof.
  split; [reflexivity |]. split; [reflexivity |].
  apply (@cum_return_failure_leaves_partial_sheet demo_analytics demo_world 0
           demo_table "alpha" "ret_5" "ret_1" "factor_quantile" (-5)
           default_periods_3x2 default_figsize_1x3 [] demo_ic_table "alpha__ret_5"
           (AnalyticsError "period must be positive"));
    reflexivity.
Defined.
